(** * ccsniffer: the CC2531 frame decoder and device controller

    A shallow embedding of [ccsniffer.py] (class [CC2531] and class
    [Packet]) together with the properties its specification states about
    the frame decoder ([parse_packet]), the receiver loop ([recv]) and the
    control state machine ([__init__], [start], [stop], [set_channel]). *)

From Stdlib Require Import ZArith List Bool Lia.
From Stdlib Require Import Strings.Byte.
Import ListNotations.
Local Open Scope Z_scope.

(** ** Python values used by the program *)

(** The exceptions the program can raise, by their Python class. *)
Inductive exn : Type :=
| IndexError      (* sequence index out of range *)
| ValueError      (* bad channel; wrong number of values to unpack *)
| AttributeError  (* attribute access on [None] *)
| USBError        (* raised by the USB transport *)
| OSError
| IOError.

(** The outcome of a Python call: a returned value or a raised exception. *)
Inductive result (A : Type) : Type :=
| Return (a : A)
| Raise (e : exn).
Arguments Return {A} a.
Arguments Raise {A} e.

Definition rbind {A B : Type} (r : result A) (k : A -> result B) : result B :=
  match r with
  | Return a => k a
  | Raise e => Raise e
  end.

Declare Scope py_scope.
Delimit Scope py_scope with py.
Notation "x <- r ;; k" := (rbind r (fun x => k))
  (at level 61, r at next level, right associativity) : py_scope.

(** An element of [array('B')]: an unsigned byte, read as an integer. *)
Definition byte_val (b : byte) : Z := Z.of_N (Byte.to_N b).

Section PySequence.
Context {A : Type}.

Definition len (l : list A) : Z := Z.of_nat (length l).

(** [l[i]]: a negative index counts from the end; out of range raises
    [IndexError]. *)
Definition getitem (l : list A) (i : Z) : result A :=
  let j := if i <? 0 then i + len l else i in
  if j <? 0 then Raise IndexError
  else match nth_error l (Z.to_nat j) with
       | Some a => Return a
       | None => Raise IndexError
       end.

(** A slice bound: a negative bound counts from the end, and every bound
    is clamped to [0 .. len l]. *)
Definition slice_bound (n : Z) (i : Z) : Z :=
  if i <? 0 then Z.max (i + n) 0 else Z.min i n.

(** [l[start:stop]] with step 1; [None] is an omitted bound.  Slicing
    never raises. *)
Definition slice (l : list A) (start stop : option Z) : list A :=
  let lo := match start with Some i => slice_bound (len l) i | None => 0 end in
  let hi := match stop with Some j => slice_bound (len l) j | None => len l end in
  firstn (Z.to_nat (hi - lo)) (skipn (Z.to_nat lo) l).
End PySequence.

(** ** class Packet *)

(** [time.gmtime()] is read from the environment; the decoder receives the
    clock reading as an argument. *)
Definition struct_time : Type := Z.

Record Packet : Type := mkPacket {
  timestamp : struct_time;
  pkt_channel : Z;
  header : list byte;
  payload : list byte;
  rssi : Z;
  crc_ok : bool;
  correlation : Z
}.

(** ** The USB device, as the controller sees it *)

(** The last argument of [ctrl_transfer]: absent, a length to read, or the
    bytes to write. *)
Inductive ctrl_data : Type :=
| NoData
| WLength (n : Z)
| Data (bytes : list Z).

(** The calls the controller makes on the device handle. *)
Inductive request : Type :=
| SetConfiguration
| GetString (length index : Z)
| CtrlTransfer (bmRequestType bRequest wValue wIndex : Z)
               (data_or_wLength : ctrl_data).

(** What a device call comes back with: data, or a [USBError]. *)
Inductive usb_reply : Type :=
| Reply (data : list byte)
| Fault.

(** What the controller and its threads do to the outside, in order. *)
Inductive event : Type :=
| Usb (rq : request)
| ThreadStart (tid : nat)
| ThreadJoin (tid : nat).

(** [usb.core.find]: raises [USBError], returns [None], or returns the
    device. *)
Inductive find_outcome : Type :=
| FindRaises
| FindNone
| Found.

(** The device is deterministic but otherwise arbitrary: its answer to a
    request may depend on everything that happened before. *)
Record Bus : Type := mkBus {
  find : find_outcome;
  respond : list event -> request -> usb_reply
}.

(** ** class CC2531 *)

Definition DEFAULT_CHANNEL : Z := 11.
Definition DATA_EP : Z := 131.
Definition DATA_TIMEOUT : Z := 2500.
Definition DIR_OUT : Z := 64.
Definition DIR_IN : Z := 192.
Definition GET_IDENT : Z := 192.
Definition SET_POWER : Z := 197.
Definition GET_POWER : Z := 198.
Definition SET_START : Z := 208.
Definition SET_STOP : Z := 209.
Definition SET_CHAN : Z := 210.

(** The attributes of a [CC2531] object that the control flow reads
    ([dev] is whether [self.dev] is a device rather than [None];
    [thread] is the identity of the [Thread] object held, if any),
    followed by the two pieces of the outside world its methods act on:
    the trace of events so far and the number of [Thread] objects created
    so far, from which fresh thread identities are drawn. *)
Record CC2531 : Type := mkCC2531 {
  dev : bool;
  channel : Z;
  running : bool;
  thread : option nat;
  trace : list event;
  spawned : nat
}.

Definition set_dev (d : bool) (w : CC2531) : CC2531 :=
  mkCC2531 d (channel w) (running w) (thread w) (trace w) (spawned w).
Definition set_channel_attr (c : Z) (w : CC2531) : CC2531 :=
  mkCC2531 (dev w) c (running w) (thread w) (trace w) (spawned w).
Definition set_running (r : bool) (w : CC2531) : CC2531 :=
  mkCC2531 (dev w) (channel w) r (thread w) (trace w) (spawned w).
Definition set_thread (t : option nat) (w : CC2531) : CC2531 :=
  mkCC2531 (dev w) (channel w) (running w) t (trace w) (spawned w).
Definition log (e : event) (w : CC2531) : CC2531 :=
  mkCC2531 (dev w) (channel w) (running w) (thread w) (trace w ++ [e])
           (spawned w).
Definition count_spawn (w : CC2531) : CC2531 :=
  mkCC2531 (dev w) (channel w) (running w) (thread w) (trace w)
           (S (spawned w)).

(** A method body: it runs on the object and its world, and whatever it
    changed before raising stays changed. *)
Definition M (A : Type) : Type := CC2531 -> result A * CC2531.

Definition ret {A : Type} (a : A) : M A := fun w => (Return a, w).
Definition raise {A : Type} (e : exn) : M A := fun w => (Raise e, w).
Definition bind {A B : Type} (m : M A) (k : A -> M B) : M B :=
  fun w =>
    match m w with
    | (Return a, w') => k a w'
    | (Raise e, w') => (Raise e, w')
    end.
Definition get {A : Type} (f : CC2531 -> A) : M A := fun w => (Return (f w), w).
Definition modify (f : CC2531 -> CC2531) : M unit := fun w => (Return tt, f w).

Declare Scope method_scope.
Delimit Scope method_scope with method.
Notation "x <- m ;; k" := (bind m (fun x => k))
  (at level 61, m at next level, right associativity) : method_scope.
Notation "m ;; k" := (bind m (fun _ => k))
  (at level 61, right associativity) : method_scope.

(** ** The frame decoder: [CC2531.parse_packet] *)

(** The decoder reads [self.channel] and the clock and changes nothing. *)
Definition parse_packet (self : CC2531) (now : struct_time)
    (packet : list byte) : result (option Packet) :=
  (packetlen <- getitem packet 1 ;;
   if negb (len packet - 3 =? byte_val packetlen) then Return None else
   let header := slice packet (Some 3) (Some 7) in
   let payload := slice packet (Some 8) (Some (-2)) in
   b7 <- getitem packet 7 ;;
   let payloadlen := byte_val b7 - 2 in
   if negb (len payload =? payloadlen) then Return None else
   let timestamp := now in
   match slice packet (Some (-2)) None with
   | [fcs1; fcs2] =>
       let rssi := (byte_val fcs1 + 2 ^ 7) mod 2 ^ 8 - 2 ^ 7 - 73 in
       let crc_ok := Z.land (byte_val fcs2) (Z.shiftl 1 7) >? 0 in
       let corr := Z.land (byte_val fcs2) 127 in
       Return (Some (mkPacket timestamp (channel self) header payload
                              rssi crc_ok corr))
   | _ => Raise ValueError
   end)%py.

(** [signed8] as the specification words it: an unsigned byte read as a
    two's-complement value. *)
Definition signed8 (x : Z) : Z := (x + 128) mod 256 - 128.

(** ** The receiver loop: [CC2531.recv] *)

(** One turn of the loop body on the outcome of [self.dev.read]: the
    packet handed to [self.callback], if any. *)
Definition recv_body (self : CC2531) (now : struct_time) (rd : usb_reply)
    : result (option Packet) :=
  match rd with
  | Fault => Raise USBError
  | Reply ret =>
      (b0 <- getitem ret 0 ;;
       if byte_val b0 =? 0 then
         packet <- parse_packet self now ret ;;
         match packet with
         | Some p => Return (Some p)
         | None => Return None
         end
       else Return None)%py
  end.

(** The loop, for a thread that finds [self.running] true once per element
    of [reads] and false afterwards: the packets handed to the callback,
    and how the thread ends. *)
Fixpoint recv (self : CC2531) (reads : list (struct_time * usb_reply))
    : list Packet * result unit :=
  match reads with
  | [] => ([], Return tt)
  | (now, rd) :: rest =>
      match recv_body self now rd with
      | Raise e => ([], Raise e)
      | Return None => recv self rest
      | Return (Some p) =>
          let (ps, r) := recv self rest in (p :: ps, r)
      end
  end.

(** ** The control methods *)

Section Controller.
Variable bus : Bus.
Local Open Scope method_scope.

(** A call on [self.dev]: [AttributeError] when it is [None]; otherwise
    the call is made and the device answers or raises. *)
Definition usb (rq : request) : M (list byte) :=
  fun w =>
    if dev w then
      match respond bus (trace w) rq with
      | Reply data => (Return data, log (Usb rq) w)
      | Fault => (Raise USBError, log (Usb rq) w)
      end
    else (Raise AttributeError, w).

Definition ctrl_transfer (bmRequestType bRequest wValue wIndex : Z)
    (data_or_wLength : ctrl_data) : M (list byte) :=
  usb (CtrlTransfer bmRequestType bRequest wValue wIndex data_or_wLength).

(** [self.thread = threading.Thread(target=self.recv)], made a daemon
    and started: a new thread object replaces the one held. *)
Definition spawn_recv : M unit :=
  fun w =>
    let tid := spawned w in
    (Return tt, log (ThreadStart tid) (count_spawn (set_thread (Some tid) w))).

(** [self.thread.join()]; the wait for the thread to end is not
    modelled, only that the call was made. *)
Definition join_thread : M unit :=
  fun w =>
    match thread w with
    | Some tid => (Return tt, log (ThreadJoin tid) w)
    | None => (Raise AttributeError, w)
    end.

Definition start : M unit :=
  modify (set_running true) ;;
  ctrl_transfer DIR_OUT SET_START 0 0 NoData ;;
  spawn_recv.

Definition stop : M unit :=
  modify (set_running false) ;;
  join_thread ;;
  ctrl_transfer DIR_OUT SET_STOP 0 0 NoData ;;
  ret tt.

Definition set_channel (channel : Z) : M unit :=
  was_running <- get running ;;
  if (channel >=? 11) && (channel <=? 26) then
    r <- get running ;;
    (if r then stop else ret tt) ;;
    modify (set_channel_attr channel) ;;
    ctrl_transfer DIR_OUT SET_CHAN 0 0 (Data [channel]) ;;
    ctrl_transfer DIR_OUT SET_CHAN 0 1 (Data [0]) ;;
    if was_running then start else ret tt
  else raise ValueError.

(** [__del__]. *)
Definition __del__ : M unit :=
  d <- get dev ;;
  if d then ctrl_transfer DIR_OUT SET_POWER 0 0 NoData ;; ret tt
  else ret tt.

(** The [while True] loop of the constructor.  It has no exit but the
    [break], so it is run on fuel: [None] says the loop is still polling
    when the fuel is spent.  ([time.sleep] leaves no trace.) *)
Fixpoint power_wait (fuel : nat) (w : CC2531)
    : option (result unit * CC2531) :=
  match fuel with
  | O => None
  | S fuel' =>
      match ctrl_transfer DIR_IN GET_POWER 0 0 (WLength 1) w with
      | (Raise e, w1) => Some (Raise e, w1)
      | (Return power_status, w1) =>
          match getitem power_status 0 with
          | Raise e => Some (Raise e, w1)
          | Return b =>
              if byte_val b =? 4 then Some (Return tt, w1)
              else power_wait fuel' w1
          end
      end
  end.

(** The constructor, up to the loop. *)
Definition power_on : M unit :=
  usb SetConfiguration ;;
  usb (GetString 256 2) ;;
  ctrl_transfer DIR_IN GET_IDENT 0 0 (WLength 256) ;;
  ctrl_transfer DIR_OUT SET_POWER 0 4 NoData ;;
  ret tt.

(** [__init__] on a world [w0] (its trace and thread count; the object's
    attributes are assigned afresh).  When it raises, the caller gets no
    object; the state returned then is that of the abandoned one.  The
    [except] clause is modelled by the exception class its [raise] names. *)
Definition __init__ (fuel : nat) (channel : Z) (w0 : CC2531)
    : option (result unit * CC2531) :=
  let w := mkCC2531 false channel false None (trace w0) (spawned w0) in
  match find bus with
  | FindRaises => Some (Raise OSError, w)
  | FindNone => Some (Raise IOError, w)
  | Found =>
      match power_on (set_dev true w) with
      | (Raise e, w1) => Some (Raise e, w1)
      | (Return _, w1) =>
          match power_wait fuel w1 with
          | None => None
          | Some (Raise e, w2) => Some (Raise e, w2)
          | Some (Return _, w2) => Some (set_channel channel w2)
          end
      end
  end.

(** What a caller holding the object can do with it next. *)
Inductive op : Type :=
| OpSetChannel (c : Z)
| OpStart
| OpStop.

Definition call (o : op) : M unit :=
  match o with
  | OpSetChannel c => set_channel c
  | OpStart => start
  | OpStop => stop
  end.

(** The states the object goes through under a sequence of calls, the
    caller going on after a call that raised: the state after each call,
    in order. *)
Fixpoint states (ops : list op) (w : CC2531) : list CC2531 :=
  match ops with
  | [] => []
  | o :: rest => let w' := snd (call o w) in w' :: states rest w'
  end.
End Controller.

(** A device that is there, answers every request with the byte 4 and so
    reports itself powered at the first poll. *)
Definition ready_bus : Bus := mkBus Found (fun _ _ => Reply [x04]).

(** A device that answers like [ready_bus] until [n] events have taken
    place and fails every call from then on. *)
Definition failing_bus (n : nat) : Bus :=
  mkBus Found
        (fun h _ => if (length h <? n)%nat then Reply [x04] else Fault).

(** A device that is there and answers every request with the byte 0: its
    power status never reads 4. *)
Definition stuck_bus : Bus := mkBus Found (fun _ _ => Reply [x00]).

Definition world0 : CC2531 := mkCC2531 false 0 false None [] 0.

(** The object right after [CC2531(callback, 15)] on [ready_bus] in an
    empty world, and the same object after [start()]. *)
Definition idle_world : CC2531 :=
  mkCC2531 true 15 false None
    [Usb SetConfiguration; Usb (GetString 256 2);
     Usb (CtrlTransfer DIR_IN GET_IDENT 0 0 (WLength 256));
     Usb (CtrlTransfer DIR_OUT SET_POWER 0 4 NoData);
     Usb (CtrlTransfer DIR_IN GET_POWER 0 0 (WLength 1));
     Usb (CtrlTransfer DIR_OUT SET_CHAN 0 0 (Data [15]));
     Usb (CtrlTransfer DIR_OUT SET_CHAN 0 1 (Data [0]))]
    0.

Definition streaming_world : CC2531 :=
  mkCC2531 true 15 true (Some 0%nat)
    (trace idle_world
     ++ [Usb (CtrlTransfer DIR_OUT SET_START 0 0 NoData); ThreadStart 0])
    1.

(** ** Vocabulary of the specification *)

Definition channel_in_range (w : CC2531) : Prop := 11 <= channel w <= 26.

(** The controller is streaming: the flag is set and the thread it holds,
    [tid], is one it started. *)
Definition streaming (w : CC2531) (tid : nat) : Prop :=
  running w = true /\ thread w = Some tid /\ (tid < spawned w)%nat.

(** [w'] differs from [w] in its trace at most. *)
Definition same_attrs (w w' : CC2531) : Prop :=
  dev w' = dev w /\ channel w' = channel w /\ running w' = running w /\
  thread w' = thread w /\ spawned w' = spawned w.

(** The object holds a device, and its flag is set only with a thread it
    started in hand. *)
Definition consistent (w : CC2531) : Prop :=
  dev w = true /\ (running w = true -> exists tid, streaming w tid).

(** The device completes every call made on it. *)
Definition reliable (bus : Bus) : Prop :=
  forall (h : list event) (rq : request), respond bus h rq <> Fault.

(** The power-status query always answers, and never with the byte 4. *)
Definition never_powered (bus : Bus) : Prop :=
  forall h : list event,
    exists (b : byte) (rest : list byte),
      respond bus h (CtrlTransfer DIR_IN GET_POWER 0 0 (WLength 1))
        = Reply (b :: rest) /\
      byte_val b <> 4.

(** The length checks of the wire layout, as the specification words
    them: byte 1 against the total length less 3, and byte 7 less 2 against
    the length of bytes 8 up to the last two. *)
Definition declared_len_ok (packet : list byte) : bool :=
  match nth_error packet 1 with
  | Some b1 => byte_val b1 =? len packet - 3
  | None => false
  end.

Definition payload_len_ok (packet : list byte) : bool :=
  match nth_error packet 7 with
  | Some b7 => byte_val b7 - 2 =? len (slice packet (Some 8) (Some (-2)))
  | None => false
  end.

Definition declared_len_mismatch (packet : list byte) : bool :=
  match nth_error packet 1 with
  | Some b1 => negb (byte_val b1 =? len packet - 3)
  | None => false
  end.

Definition payload_len_mismatch (packet : list byte) : bool :=
  match nth_error packet 7 with
  | Some b7 =>
      negb (byte_val b7 - 2 =? len (slice packet (Some 8) (Some (-2))))
  | None => false
  end.

(** ** Vocabulary for the receiver loop and the constructor *)

(** A read the loop passes on to the decoder: a buffer whose byte 0 is 0. *)
Definition status_zero (rd : struct_time * usb_reply) : bool :=
  match snd rd with
  | Reply (b0 :: _) => byte_val b0 =? 0
  | _ => false
  end.

(** The power-status query of the constructor's loop, and the trace of [k]
    of them in a row. *)
Definition power_query : request :=
  CtrlTransfer DIR_IN GET_POWER 0 0 (WLength 1).

Definition polls (k : nat) : list event := repeat (Usb power_query) k.

(** The trace of the constructor before its loop. *)
Definition power_on_events : list event :=
  [Usb SetConfiguration; Usb (GetString 256 2);
   Usb (CtrlTransfer DIR_IN GET_IDENT 0 0 (WLength 256));
   Usb (CtrlTransfer DIR_OUT SET_POWER 0 4 NoData)].

(** After the history [h], the device answers its first [k] power-status
    queries with a first byte other than 4. *)
Definition unpowered_for (bus : Bus) (h : list event) (k : nat) : Prop :=
  forall j : nat, (j < k)%nat ->
    exists (b : byte) (rest : list byte),
      respond bus (h ++ polls j) power_query = Reply (b :: rest) /\
      byte_val b <> 4.

(** ... and the next one with the byte 4. *)
Definition powered_at (bus : Bus) (h : list event) (k : nat) : Prop :=
  unpowered_for bus h k /\
  exists (b : byte) (rest : list byte),
    respond bus (h ++ polls k) power_query = Reply (b :: rest) /\
    byte_val b = 4.

(** The channel a device call asks for, when it is the first of the two
    set-channel commands. *)
Definition channel_of_command (e : event) : option Z :=
  match e with
  | Usb (CtrlTransfer _ bRequest _ wIndex (Data [c])) =>
      if (bRequest =? SET_CHAN) && (wIndex =? 0) then Some c else None
  | _ => None
  end.

(** The channel of the last such command in a trace. *)
Definition last_channel_command (h : list event) : option Z :=
  fold_left (fun acc e =>
               match channel_of_command e with
               | Some c => Some c
               | None => acc
               end)
            h None.

(** A device that reads "not powered" until [n] events have taken place
    and "powered" from then on. *)
Definition warming_bus (n : nat) : Bus :=
  mkBus Found
        (fun h _ => if (length h <? n)%nat then Reply [x00] else Reply [x04]).

(** A device that reads "not powered" until [n] events have taken place
    and answers with no data from then on. *)
Definition mute_bus (n : nat) : Bus :=
  mkBus Found
        (fun h _ => if (length h <? n)%nat then Reply [x00] else Reply []).


(** * Properties *)

(** ** Python sequences *)

Section PySequenceFacts.
Context {A : Type}.
Implicit Types l : list A.

Lemma getitem_nat l (n : nat) :
  getitem l (Z.of_nat n) =
  match nth_error l n with
  | Some a => Return a
  | None => Raise IndexError
  end.
Proof.
  assert (E : (Z.of_nat n <? 0) = false) by (apply Z.ltb_ge; lia).
  unfold getitem. rewrite E. cbv zeta. rewrite E.
  now rewrite Nat2Z.id.
Qed.

Lemma getitem_short l (n : nat) :
  (length l <= n)%nat -> getitem l (Z.of_nat n) = Raise IndexError.
Proof.
  intros Hshort. rewrite getitem_nat.
  now rewrite (proj2 (nth_error_None l n) Hshort).
Qed.

Lemma getitem_long l (n : nat) :
  (n < length l)%nat -> exists a, getitem l (Z.of_nat n) = Return a.
Proof.
  intros Hlong. rewrite getitem_nat.
  destruct (nth_error l n) as [a |] eqn:E; [now exists a |].
  apply nth_error_None in E. lia.
Qed.

(** The three slices the decoder takes, in terms of [firstn] and
    [skipn]. *)
Lemma slice_3_7 l : slice l (Some 3) (Some 7) = firstn 4 (skipn 3 l).
Proof.
  unfold slice, slice_bound, len. cbn [Z.ltb Z.compare].
  destruct (Nat.le_gt_cases 7 (length l)) as [Hlong | Hshort].
  - rewrite !Z.min_l by lia. reflexivity.
  - rewrite (Z.min_r 7) by lia.
    destruct (Nat.le_gt_cases 3 (length l)) as [H3 | H3].
    + rewrite Z.min_l by lia. change (Z.to_nat 3) with 3%nat.
      rewrite !firstn_all2; trivial; rewrite length_skipn; lia.
    + rewrite Z.min_r by lia. rewrite Z.sub_diag, Nat2Z.id.
      rewrite !skipn_all2 by lia. now rewrite firstn_nil.
Qed.

Lemma slice_8_m2 l :
  slice l (Some 8) (Some (-2)) = firstn (length l - 10) (skipn 8 l).
Proof.
  unfold slice, slice_bound, len. cbn [Z.ltb Z.compare].
  destruct (Nat.le_gt_cases 10 (length l)) as [Hlong | Hshort].
  - rewrite Z.min_l, Z.max_l by lia.
    replace (Z.to_nat (-2 + Z.of_nat (length l) - 8))
      with (length l - 10)%nat by lia.
    reflexivity.
  - replace (length l - 10)%nat with 0%nat by lia.
    match goal with
    | |- firstn ?n _ = _ => replace n with 0%nat by lia
    end.
    reflexivity.
Qed.

Lemma slice_m2 l : slice l (Some (-2)) None = skipn (length l - 2) l.
Proof.
  unfold slice, slice_bound, len. cbn [Z.ltb Z.compare].
  replace (Z.to_nat (Z.max (-2 + Z.of_nat (length l)) 0))
    with (length l - 2)%nat by lia.
  apply firstn_all2. rewrite length_skipn. lia.
Qed.

Lemma len_slice_8_m2 l :
  len (slice l (Some 8) (Some (-2))) = Z.max 0 (len l - 10).
Proof.
  rewrite slice_8_m2. unfold len.
  rewrite length_firstn, length_skipn. lia.
Qed.

Lemma slice_m2_snoc2 (pre : list A) (x y : A) :
  slice (pre ++ [x; y]) (Some (-2)) None = [x; y].
Proof.
  rewrite slice_m2, length_app. cbn [length].
  replace (length pre + 2 - 2)%nat with (length pre) by lia.
  now rewrite skipn_app, skipn_all, Nat.sub_diag.
Qed.

Lemma snoc2_of_long l :
  (2 <= length l)%nat -> exists pre x y, l = pre ++ [x; y].
Proof.
  intros Hlong.
  exists (firstn (length l - 2) l).
  assert (Htail : length (skipn (length l - 2) l) = 2%nat)
    by (rewrite length_skipn; lia).
  destruct (skipn (length l - 2) l) as [| x [| y [| z tl]]] eqn:E;
    try discriminate.
  exists x, y. rewrite <- E. symmetry. apply firstn_skipn.
Qed.
End PySequenceFacts.

(** ** The frame decoder *)

Lemma getitem_0 {A : Type} (l : list A) :
  getitem l 0 =
  match nth_error l 0 with Some a => Return a | None => Raise IndexError end.
Proof. exact (getitem_nat l 0). Qed.

Lemma getitem_1 {A : Type} (l : list A) :
  getitem l 1 =
  match nth_error l 1 with Some a => Return a | None => Raise IndexError end.
Proof. exact (getitem_nat l 1). Qed.

Lemma getitem_7 {A : Type} (l : list A) :
  getitem l 7 =
  match nth_error l 7 with Some a => Return a | None => Raise IndexError end.
Proof. exact (getitem_nat l 7). Qed.

(** [signed8] is the two's-complement reading of a byte. *)
Lemma signed8_twos_complement (x : Z) :
  0 <= x < 256 -> signed8 x = if x <? 128 then x else x - 256.
Proof.
  intros Hx. unfold signed8.
  destruct (Z.ltb_spec x 128) as [Hlo | Hhi].
  - rewrite Z.mod_small; lia.
  - replace (x + 128) with (x - 128 + 1 * 256) by lia.
    rewrite Z.mod_add by lia. rewrite Z.mod_small; lia.
Qed.

Lemma signed8_range (x : Z) : -128 <= signed8 x <= 127.
Proof.
  unfold signed8. pose proof (Z.mod_pos_bound (x + 128) 256). lia.
Qed.

Lemma byte_val_range (b : byte) : 0 <= byte_val b < 256.
Proof.
  unfold byte_val. pose proof (Byte.to_N_bounded b). lia.
Qed.

(** The decoder's test [fcs2 & (1 << 7) > 0] reads bit 7, and is the
    specification's [fcs2 & 0x80 != 0]. *)
Lemma crc_test_is_bit7 (b : byte) :
  (Z.land (byte_val b) (Z.shiftl 1 7) >? 0) = Z.testbit (byte_val b) 7.
Proof. destruct b; reflexivity. Qed.

Lemma crc_test_is_mask_nonzero (b : byte) :
  (Z.land (byte_val b) (Z.shiftl 1 7) >? 0)
  = negb (Z.land (byte_val b) 128 =? 0).
Proof. destruct b; reflexivity. Qed.

(** What an accepting run of the decoder looked at, and what it built. *)
Lemma parse_packet_inv (self : CC2531) (now : struct_time)
    (packet : list byte) (p : Packet) :
  parse_packet self now packet = Return (Some p) ->
  exists pre fcs1 fcs2,
    packet = pre ++ [fcs1; fcs2] /\
    declared_len_ok packet = true /\
    payload_len_ok packet = true /\
    p = mkPacket now (channel self)
          (slice packet (Some 3) (Some 7))
          (slice packet (Some 8) (Some (-2)))
          (signed8 (byte_val fcs1) - 73)
          (Z.testbit (byte_val fcs2) 7)
          (Z.land (byte_val fcs2) 127).
Proof.
  unfold parse_packet, rbind, declared_len_ok, payload_len_ok.
  rewrite getitem_1, getitem_7.
  destruct (nth_error packet 1) as [b1 |]; [| discriminate].
  destruct (Z.eqb_spec (len packet - 3) (byte_val b1)) as [Hdecl | _];
    [cbn [negb] | discriminate].
  destruct (nth_error packet 7) as [b7 |] eqn:E7; [| discriminate].
  destruct (Z.eqb_spec (len (slice packet (Some 8) (Some (-2))))
                       (byte_val b7 - 2)) as [Hpay | _];
    [cbn [negb] | discriminate].
  assert (Hlong : (2 <= length packet)%nat).
  { assert (7 < length packet)%nat by (apply nth_error_Some; congruence). lia. }
  destruct (snoc2_of_long packet Hlong) as (pre & fcs1 & fcs2 & Esnoc).
  assert (Efcs : slice packet (Some (-2)) None = [fcs1; fcs2])
    by (rewrite Esnoc; apply slice_m2_snoc2).
  rewrite Efcs. intros Hret. injection Hret as <-.
  exists pre, fcs1, fcs2. rewrite crc_test_is_bit7.
  repeat split; trivial.
  - apply Z.eqb_eq. lia.
  - apply Z.eqb_eq. lia.
Qed.

(** A buffer that passes both length checks is accepted. *)
Lemma parse_packet_accepts (self : CC2531) (now : struct_time)
    (packet : list byte) :
  declared_len_ok packet = true ->
  payload_len_ok packet = true ->
  exists p, parse_packet self now packet = Return (Some p).
Proof.
  unfold parse_packet, rbind, declared_len_ok, payload_len_ok.
  rewrite getitem_1, getitem_7.
  destruct (nth_error packet 1) as [b1 |]; [| discriminate].
  intros Hdecl%Z.eqb_eq.
  destruct (nth_error packet 7) as [b7 |] eqn:E7; [| discriminate].
  intros Hpay%Z.eqb_eq.
  rewrite (proj2 (Z.eqb_eq (len packet - 3) (byte_val b1))) by lia.
  rewrite (proj2 (Z.eqb_eq (len (slice packet (Some 8) (Some (-2))))
                           (byte_val b7 - 2))) by lia.
  cbn [negb].
  assert (Hlong : (2 <= length packet)%nat).
  { assert (7 < length packet)%nat by (apply nth_error_Some; congruence). lia. }
  destruct (snoc2_of_long packet Hlong) as (pre & fcs1 & fcs2 & Esnoc).
  assert (Efcs : slice packet (Some (-2)) None = [fcs1; fcs2])
    by (rewrite Esnoc; apply slice_m2_snoc2).
  rewrite Efcs. eexists. reflexivity.
Qed.

(** The decoder never looks at byte 0. *)
Lemma parse_packet_status_irrelevant (self : CC2531) (now : struct_time)
    (b0 b0' : byte) (rest : list byte) :
  parse_packet self now (b0 :: rest) = parse_packet self now (b0' :: rest).
Proof.
  destruct rest as [| b1 [| b2 [| b3 [| b4 [| b5 [| b6 [| b7 rest]]]]]]];
    try reflexivity.
  unfold parse_packet, rbind.
  rewrite !getitem_1, !getitem_7, !slice_3_7, !slice_8_m2, !slice_m2.
  unfold len. cbn [nth_error skipn length Nat.sub].
  reflexivity.
Qed.

(** Every run of the decoder falls in one of five cases, by the length of
    the buffer and the two length checks. *)
Lemma parse_packet_cases (self : CC2531) (now : struct_time)
    (packet : list byte) :
  ((length packet < 2)%nat /\
     parse_packet self now packet = Raise IndexError) \/
  ((2 <= length packet)%nat /\ declared_len_ok packet = false /\
     parse_packet self now packet = Return None) \/
  ((2 <= length packet < 8)%nat /\ declared_len_ok packet = true /\
     parse_packet self now packet = Raise IndexError) \/
  ((8 <= length packet)%nat /\ declared_len_ok packet = true /\
     payload_len_ok packet = false /\
     parse_packet self now packet = Return None) \/
  ((8 <= length packet)%nat /\ declared_len_ok packet = true /\
     payload_len_ok packet = true /\
     exists p, parse_packet self now packet = Return (Some p)).
Proof.
  unfold parse_packet at 1 2 3 4, rbind, declared_len_ok, payload_len_ok.
  rewrite getitem_1, getitem_7.
  destruct (nth_error packet 1) as [b1 |] eqn:E1.
  2:{ apply nth_error_None in E1. left. split; [lia | reflexivity]. }
  assert (1 < length packet)%nat by (apply nth_error_Some; congruence).
  right. rewrite (Z.eqb_sym (byte_val b1)).
  destruct (len packet - 3 =? byte_val b1) eqn:Hdecl; cbn [negb].
  2:{ left. repeat split; lia. }
  right.
  destruct (nth_error packet 7) as [b7 |] eqn:E7.
  2:{ apply nth_error_None in E7. left. repeat split; lia. }
  assert (7 < length packet)%nat by (apply nth_error_Some; congruence).
  right. rewrite (Z.eqb_sym (byte_val b7 - 2)).
  destruct (len (slice packet (Some 8) (Some (-2))) =? byte_val b7 - 2)
    eqn:Hpay; cbn [negb].
  2:{ left. repeat split; lia. }
  right. repeat split; try lia.
  apply parse_packet_accepts; unfold declared_len_ok, payload_len_ok.
  - now rewrite E1, Z.eqb_sym.
  - now rewrite E7, Z.eqb_sym.
Qed.

(** C1.  For every buffer the decoder accepts, with [fcs1] and [fcs2] its
    last two bytes, the packet has [rssi = signed8 fcs1 - 73], [crc_ok]
    equal to bit 7 of [fcs2] (that is, to [fcs2 & 0x80 != 0]) and
    [correlation = fcs2 & 0x7F]; so [fcs1 = 0xD6] gives [rssi = -115] and
    [fcs2 = 0x85] gives [crc_ok = true] and [correlation = 5]. *)
Theorem accepted_status_fields (self : CC2531) (now : struct_time)
    (pre : list byte) (fcs1 fcs2 : byte) (p : Packet) :
  parse_packet self now (pre ++ [fcs1; fcs2]) = Return (Some p) ->
  rssi p = signed8 (byte_val fcs1) - 73 /\
  crc_ok p = Z.testbit (byte_val fcs2) 7 /\
  crc_ok p = negb (Z.land (byte_val fcs2) 128 =? 0) /\
  correlation p = Z.land (byte_val fcs2) 127 /\
  (fcs1 = xd6 -> rssi p = -115) /\
  (fcs2 = x85 -> crc_ok p = true /\ correlation p = 5).
Proof.
  intros Hacc.
  destruct (parse_packet_inv _ _ _ _ Hacc)
    as (pre' & f1 & f2 & Esnoc & _ & _ & ->).
  apply (f_equal (fun l => slice l (Some (-2)) None)) in Esnoc.
  rewrite !slice_m2_snoc2 in Esnoc. injection Esnoc as <- <-.
  cbn [rssi crc_ok correlation].
  rewrite <- crc_test_is_mask_nonzero, crc_test_is_bit7.
  repeat split; try reflexivity; try intros ->; subst; reflexivity.
Qed.

Lemma accepted_status_fields_witness :
  let packet := [x00; x0a; x00; x01; x02; x03; x04; x05; x01; x02; x03] in
  let p := mkPacket 0 15 [x01; x02; x03; x04] [x01; x02; x03] (-115) true 5 in
  parse_packet (mkCC2531 true 15 true (Some 0%nat) [] 1) 0
               (packet ++ [xd6; x85]) = Return (Some p) /\
  rssi p = signed8 (byte_val xd6) - 73 /\
  crc_ok p = Z.testbit (byte_val x85) 7 /\
  crc_ok p = negb (Z.land (byte_val x85) 128 =? 0) /\
  correlation p = Z.land (byte_val x85) 127 /\
  (xd6 = xd6 -> rssi p = -115) /\
  (x85 = x85 -> crc_ok p = true /\ correlation p = 5).
Proof.
  intros packet p. split; [reflexivity |].
  apply (accepted_status_fields
           (mkCC2531 true 15 true (Some 0%nat) [] 1) 0 packet xd6 x85 p).
  reflexivity.
Defined.

(** C2.  A buffer whose byte 1 differs from its length less 3, and a
    buffer whose byte 7 less 2 differs from the length of its bytes 8 up
    to the last two, yields no packet: the decoder returns [None]. *)
Theorem length_mismatch_rejected (self : CC2531) (now : struct_time)
    (packet : list byte) :
  declared_len_mismatch packet = true \/ payload_len_mismatch packet = true ->
  parse_packet self now packet = Return None.
Proof.
  unfold declared_len_mismatch, payload_len_mismatch.
  intros Hmis.
  destruct (parse_packet_cases self now packet)
    as [(Hlen & _) | [(_ & _ & Hret) | [(Hlen & Hdecl & _)
        | [(_ & _ & _ & Hret) | (Hlen & Hdecl & Hpay & _)]]]];
    trivial; exfalso.
  - destruct Hmis as [Hmis | Hmis].
    + destruct (nth_error packet 1) eqn:E; [| discriminate].
      assert (1 < length packet)%nat by (apply nth_error_Some; congruence).
      lia.
    + destruct (nth_error packet 7) eqn:E; [| discriminate].
      assert (7 < length packet)%nat by (apply nth_error_Some; congruence).
      lia.
  - destruct Hmis as [Hmis | Hmis].
    + unfold declared_len_ok in Hdecl.
      destruct (nth_error packet 1); [| discriminate].
      rewrite Hdecl in Hmis. discriminate.
    + destruct (nth_error packet 7) eqn:E; [| discriminate].
      assert (7 < length packet)%nat by (apply nth_error_Some; congruence).
      lia.
  - unfold declared_len_ok in Hdecl. unfold payload_len_ok in Hpay.
    destruct Hmis as [Hmis | Hmis].
    + destruct (nth_error packet 1); [| discriminate].
      rewrite Hdecl in Hmis. discriminate.
    + destruct (nth_error packet 7); [| discriminate].
      rewrite Hpay in Hmis. discriminate.
Qed.

Lemma length_mismatch_rejected_witness :
  let short := [x00; x09; x00; x01; x02; x03; x04; x05; x01; x02; x03;
                xd6; x85] in
  let long := [x00; x0a; x00; x01; x02; x03; x04; x07; x01; x02; x03;
               xd6; x85] in
  (declared_len_mismatch short = true /\
   parse_packet world0 0 short = Return None) /\
  (payload_len_mismatch long = true /\
   parse_packet world0 0 long = Return None).
Proof.
  intros short long. split; (split; [reflexivity |]).
  - apply (length_mismatch_rejected world0 0 short). left. reflexivity.
  - apply (length_mismatch_rejected world0 0 long). right. reflexivity.
Defined.

(** C3 fails on the code.  The decoder indexes bytes 1 and 7 before it
    knows they are there: a three-byte buffer whose byte 1 is 0 passes the
    first length check and then raises [IndexError], as does the empty
    buffer at once. *)
Theorem parse_packet_raises_on_short_buffer (self : CC2531)
    (now : struct_time) :
  parse_packet self now [x00; x00; x00] = Raise IndexError /\
  parse_packet self now [] = Raise IndexError /\
  recv_body self now (Reply [x00; x00; x00]) = Raise IndexError.
Proof. repeat split. Qed.

(** From eight bytes on the decoder does return, a packet or [None]. *)
Lemma parse_packet_returns_from_8 (self : CC2531) (now : struct_time)
    (packet : list byte) :
  (8 <= length packet)%nat ->
  parse_packet self now packet = Return None \/
  exists p, parse_packet self now packet = Return (Some p).
Proof.
  intros Hlen.
  destruct (parse_packet_cases self now packet)
    as [(? & _) | [(_ & _ & Hret) | [(? & _)
        | [(_ & _ & _ & Hret) | (_ & _ & _ & Hret)]]]];
    auto; lia.
Qed.

(** It raises on exactly the buffers of fewer than two bytes and those of
    fewer than eight bytes that pass the first length check, and then it
    raises [IndexError]. *)
Lemma parse_packet_raises_iff (self : CC2531) (now : struct_time)
    (packet : list byte) (e : exn) :
  parse_packet self now packet = Raise e <->
  e = IndexError /\
  ((length packet < 2)%nat \/
   ((length packet < 8)%nat /\ declared_len_ok packet = true)).
Proof.
  destruct (parse_packet_cases self now packet)
    as [(Hlen & Hret) | [(Hlen & Hdecl & Hret) | [(Hlen & Hdecl & Hret)
        | [(Hlen & _ & _ & Hret) | (Hlen & _ & _ & p & Hret)]]]];
    rewrite Hret; split.
  - intros [= <-]. auto.
  - now intros [-> _].
  - discriminate.
  - intros [_ [? | [_ ?]]]; [lia | congruence].
  - intros [= <-]. split; [reflexivity | right; split; [lia | assumption]].
  - now intros [-> _].
  - discriminate.
  - intros [_ [? | [? _]]]; lia.
  - discriminate.
  - intros [_ [? | [? _]]]; lia.
Qed.

(** C9.  Decoding an accepted buffer a second time, under the same channel,
    again yields a packet, equal to the first in channel, header, payload,
    rssi, crc_ok and correlation; each carries the clock reading of its
    own run as timestamp. *)
Theorem decode_twice_differs_in_timestamp_only (self1 self2 : CC2531)
    (now1 now2 : struct_time) (packet : list byte) (p1 : Packet) :
  channel self1 = channel self2 ->
  parse_packet self1 now1 packet = Return (Some p1) ->
  exists p2,
    parse_packet self2 now2 packet = Return (Some p2) /\
    pkt_channel p1 = pkt_channel p2 /\
    header p1 = header p2 /\
    payload p1 = payload p2 /\
    rssi p1 = rssi p2 /\
    crc_ok p1 = crc_ok p2 /\
    correlation p1 = correlation p2 /\
    timestamp p1 = now1 /\
    timestamp p2 = now2.
Proof.
  intros Hchan Hacc1.
  destruct (parse_packet_inv _ _ _ _ Hacc1)
    as (pre & f1 & f2 & Esnoc & Hdecl & Hpay & ->).
  destruct (parse_packet_accepts self2 now2 packet Hdecl Hpay) as (p2 & Hacc2).
  exists p2. split; [assumption |].
  destruct (parse_packet_inv _ _ _ _ Hacc2)
    as (pre' & f1' & f2' & Esnoc' & _ & _ & ->).
  rewrite Esnoc in Esnoc'.
  apply (f_equal (fun l => slice l (Some (-2)) None)) in Esnoc'.
  rewrite !slice_m2_snoc2 in Esnoc'. injection Esnoc' as <- <-.
  cbn. rewrite Hchan. repeat split.
Qed.

Lemma decode_twice_differs_in_timestamp_only_witness :
  let packet := [x00; x0a; x00; x01; x02; x03; x04; x05; x01; x02; x03;
                 xd6; x85] in
  let self1 := mkCC2531 true 15 true (Some 0%nat) [] 1 in
  let self2 := mkCC2531 true 15 true (Some 3%nat) [ThreadStart 2] 4 in
  let p1 := mkPacket 100 15 [x01; x02; x03; x04] [x01; x02; x03]
                     (-115) true 5 in
  channel self1 = channel self2 /\
  parse_packet self1 100 packet = Return (Some p1) /\
  exists p2,
    parse_packet self2 200 packet = Return (Some p2) /\
    pkt_channel p1 = pkt_channel p2 /\
    header p1 = header p2 /\
    payload p1 = payload p2 /\
    rssi p1 = rssi p2 /\
    crc_ok p1 = crc_ok p2 /\
    correlation p1 = correlation p2 /\
    timestamp p1 = 100 /\
    timestamp p2 = 200.
Proof.
  intros packet self1 self2 p1.
  split; [reflexivity |]. split; [reflexivity |].
  apply (decode_twice_differs_in_timestamp_only self1 self2 100 200 packet p1);
    reflexivity.
Defined.

(** The receiver loop drops a buffer whose byte 0 is not 0 without
    decoding it. *)
Lemma recv_skips_nonzero_status (self : CC2531) (now : struct_time)
    (b0 : byte) (rest : list byte)
    (reads : list (struct_time * usb_reply)) :
  byte_val b0 <> 0 ->
  recv_body self now (Reply (b0 :: rest)) = Return None /\
  recv self ((now, Reply (b0 :: rest)) :: reads) = recv self reads.
Proof.
  intros Hstatus.
  assert (Hbody : recv_body self now (Reply (b0 :: rest)) = Return None).
  { unfold recv_body, rbind. rewrite getitem_0. cbn [nth_error].
    now destruct (Z.eqb_spec (byte_val b0) 0). }
  split; [assumption |]. cbn [recv]. now rewrite Hbody.
Qed.

(** C10.  The decoder does not inspect byte 0: a buffer that passes both
    length checks is decoded to a packet, the same one whatever its byte 0
    is.  The status filter is the receiver loop's: the loop hands the
    packet on when byte 0 is 0 and drops the buffer when it is not, while
    the decoder called on that same buffer still returns the packet. *)
Theorem decoder_ignores_status_byte (self : CC2531) (now : struct_time)
    (b0 : byte) (rest : list byte) :
  declared_len_ok (b0 :: rest) = true ->
  payload_len_ok (b0 :: rest) = true ->
  exists p,
    parse_packet self now (b0 :: rest) = Return (Some p) /\
    (forall b0', parse_packet self now (b0' :: rest) = Return (Some p)) /\
    (byte_val b0 <> 0 ->
       recv_body self now (Reply (b0 :: rest)) = Return None) /\
    (byte_val b0 = 0 ->
       recv_body self now (Reply (b0 :: rest)) = Return (Some p)).
Proof.
  intros Hdecl Hpay.
  destruct (parse_packet_accepts self now _ Hdecl Hpay) as (p & Hacc).
  exists p. split; [assumption |]. split; [| split].
  - intros b0'. now rewrite (parse_packet_status_irrelevant self now b0' b0).
  - intros Hstatus.
    apply (recv_skips_nonzero_status self now b0 rest [] Hstatus).
  - intros Hstatus. unfold recv_body, rbind. rewrite getitem_0.
    cbn [nth_error]. rewrite Hstatus, Hacc. reflexivity.
Qed.

Lemma decoder_ignores_status_byte_witness :
  let rest := [x0a; x00; x01; x02; x03; x04; x05; x01; x02; x03; xd6; x85] in
  declared_len_ok (x01 :: rest) = true /\
  payload_len_ok (x01 :: rest) = true /\
  exists p,
    parse_packet world0 0 (x01 :: rest) = Return (Some p) /\
    (forall b0', parse_packet world0 0 (b0' :: rest) = Return (Some p)) /\
    (byte_val x01 <> 0 ->
       recv_body world0 0 (Reply (x01 :: rest)) = Return None) /\
    (byte_val x01 = 0 ->
       recv_body world0 0 (Reply (x01 :: rest)) = Return (Some p)).
Proof.
  intros rest. split; [reflexivity |]. split; [reflexivity |].
  apply (decoder_ignores_status_byte world0 0 x01 rest); reflexivity.
Defined.

(** ** The controller *)

Example init_ready :
  __init__ ready_bus 1 15 world0 = Some (Return tt, idle_world).
Proof. reflexivity. Qed.

Example start_idle : start ready_bus idle_world = (Return tt, streaming_world).
Proof. reflexivity. Qed.

(** A [set_channel] cut short by the device: the thread was joined and the
    flag cleared, the stop command and the first channel command went
    through, the second one failed; the channel is the new one and the
    controller is left stopped. *)
Example set_channel_interrupted :
  set_channel (failing_bus 12) 20 streaming_world
  = (Raise USBError,
     mkCC2531 true 20 false (Some 0%nat)
       (trace streaming_world
        ++ [ThreadJoin 0;
            Usb (CtrlTransfer DIR_OUT SET_STOP 0 0 NoData);
            Usb (CtrlTransfer DIR_OUT SET_CHAN 0 0 (Data [20]));
            Usb (CtrlTransfer DIR_OUT SET_CHAN 0 1 (Data [0]))])
       1).
Proof. reflexivity. Qed.

(** Unfold the method bodies down to tests on the object and on the
    device's answers. *)
Ltac unfold_methods :=
  unfold set_channel, start, stop, bind, modify, get, ret, raise,
    ctrl_transfer, usb, spawn_recv, join_thread,
    log, count_spawn, set_thread, set_running, set_channel_attr, set_dev;
  cbn.

(** Case analysis on each answer of the device, in program order. *)
Ltac device_cases :=
  repeat match goal with
         | |- context [respond ?bus ?h ?rq] =>
             destruct (respond bus h rq) eqn:?; cbn
         end.

(** The same when the device is known not to fail. *)
Ltac device_answers Hrel :=
  repeat match goal with
         | |- context [respond ?bus ?h ?rq] =>
             let E := fresh "E" in
             destruct (respond bus h rq) eqn:E;
             [cbn | now apply Hrel in E]
         end.

Section ControllerFacts.
Variable bus : Bus.

(** A call on the device either is not made, or is appended to the
    trace; nothing else changes. *)
Lemma usb_cases (rq : request) (w : CC2531) :
  (dev w = false /\ usb bus rq w = (Raise AttributeError, w)) \/
  (dev w = true /\ respond bus (trace w) rq = Fault /\
     usb bus rq w = (Raise USBError, log (Usb rq) w)) \/
  (dev w = true /\ exists data, respond bus (trace w) rq = Reply data /\
     usb bus rq w = (Return data, log (Usb rq) w)).
Proof.
  unfold usb. destruct (dev w); [right | left; auto].
  destruct (respond bus (trace w) rq) as [data |]; [right | left]; eauto.
Qed.

Lemma usb_reliable (rq : request) (w : CC2531) :
  reliable bus -> dev w = true ->
  exists data, usb bus rq w = (Return data, log (Usb rq) w).
Proof.
  intros Hrel Hdev.
  destruct (usb_cases rq w)
    as [(Hno & _) | [(_ & Hfault & _) | (_ & data & _ & Hrun)]].
  - congruence.
  - now apply Hrel in Hfault.
  - eauto.
Qed.

(** [start] and [stop] leave the channel alone, failing or not. *)
Lemma start_keeps_channel (w : CC2531) :
  channel (snd (start bus w)) = channel w.
Proof.
  unfold start, bind, modify, ctrl_transfer, usb, spawn_recv. cbn.
  destruct (dev w); [| reflexivity].
  destruct (respond bus _ _); reflexivity.
Qed.

Lemma stop_keeps_channel (w : CC2531) :
  channel (snd (stop bus w)) = channel w.
Proof.
  unfold stop, bind, modify, ctrl_transfer, usb, join_thread, ret. cbn.
  destruct (thread w); [| reflexivity]. cbn.
  destruct (dev w); [| reflexivity].
  destruct (respond bus _ _); reflexivity.
Qed.

(** [set_channel] leaves the channel as it was or sets it to an argument
    that passed the range test. *)
Lemma set_channel_channel (c : Z) (w : CC2531) :
  channel (snd (set_channel bus c w)) = channel w \/
  (11 <= c <= 26 /\ channel (snd (set_channel bus c w)) = c).
Proof.
  unfold_methods.
  destruct (Z.geb_spec c 11) as [Hlo | Hlo]; [| now left].
  destruct (Z.leb_spec c 26) as [Hhi | Hhi]; [| now left].
  cbn.
  destruct (running w), (thread w), (dev w); cbn; auto;
    device_cases; auto with zarith.
Qed.

(** When [set_channel] returns, its argument was in range and is the
    channel. *)
Lemma set_channel_returns (c : Z) (w w' : CC2531) (u : unit) :
  set_channel bus c w = (Return u, w') ->
  11 <= c <= 26 /\ channel w' = c.
Proof.
  destruct u. unfold_methods.
  destruct (Z.geb_spec c 11) as [Hlo | Hlo]; [| discriminate].
  destruct (Z.leb_spec c 26) as [Hhi | Hhi]; [| discriminate].
  cbn.
  destruct (running w), (thread w), (dev w); cbn; try discriminate;
    device_cases; try discriminate;
    intros [= <-]; cbn; auto with zarith.
Qed.

Lemma call_keeps_channel_in_range (o : op) (w : CC2531) :
  channel_in_range w -> channel_in_range (snd (call bus o w)).
Proof.
  unfold channel_in_range. intros Hw.
  destruct o as [c | |]; cbn [call].
  - destruct (set_channel_channel c w) as [-> | (Hc & ->)]; assumption.
  - now rewrite start_keeps_channel.
  - now rewrite stop_keeps_channel.
Qed.

Lemma states_keep_channel_in_range (ops : list op) (w : CC2531) :
  channel_in_range w -> Forall channel_in_range (states bus ops w).
Proof.
  revert w. induction ops as [| o ops IH]; intros w Hw; cbn [states].
  - constructor.
  - constructor; [| apply IH]; now apply call_keeps_channel_in_range.
Qed.

(** A constructor that returns ended in a [set_channel] that returned. *)
Lemma init_returns (fuel : nat) (c : Z) (w0 w : CC2531) (u : unit) :
  __init__ bus fuel c w0 = Some (Return u, w) ->
  exists w2, set_channel bus c w2 = (Return u, w).
Proof.
  unfold __init__.
  destruct (find bus); try discriminate.
  destruct (power_on bus _) as [[[] | e] w1]; [| discriminate].
  destruct (power_wait bus fuel w1) as [[[[] | e] w2] |]; try discriminate.
  intros [= Hset]. now exists w2.
Qed.

(** *** The power-status loop *)

Lemma usb_same_attrs (rq : request) (w : CC2531) :
  same_attrs w (snd (usb bus rq w)).
Proof.
  unfold same_attrs, usb. destruct w as [d c r t tr n]. cbn.
  destruct d; [| cbn; auto].
  destruct (respond bus tr rq); cbn; auto.
Qed.

Lemma same_attrs_trans (w1 w2 w3 : CC2531) :
  same_attrs w1 w2 -> same_attrs w2 w3 -> same_attrs w1 w3.
Proof.
  unfold same_attrs. intuition congruence.
Qed.

Lemma power_on_same_attrs (w : CC2531) :
  same_attrs w (snd (power_on bus w)).
Proof.
  unfold power_on, bind, ret, ctrl_transfer.
  repeat match goal with
         | |- context [usb bus ?rq ?w0] =>
             let H := fresh "Hframe" in
             pose proof (usb_same_attrs rq w0) as H;
             destruct (usb bus rq w0) as [[? | ?] ?]; cbn [snd] in *
         end;
    eauto using same_attrs_trans.
Qed.

Lemma power_wait_same_attrs (fuel : nat) :
  forall (w w' : CC2531) (r : result unit),
    power_wait bus fuel w = Some (r, w') -> same_attrs w w'.
Proof.
  induction fuel as [| fuel IH]; intros w w' r; cbn [power_wait];
    [discriminate |].
  unfold ctrl_transfer.
  pose proof (usb_same_attrs
                (CtrlTransfer DIR_IN GET_POWER 0 0 (WLength 1)) w) as Hframe.
  destruct (usb bus _ w) as [[power_status | e] w1]; cbn [snd] in Hframe.
  - destruct (getitem power_status 0) as [b | e].
    + destruct (byte_val b =? 4).
      * now intros [= <- <-].
      * intros Hrec. eauto using same_attrs_trans.
    + now intros [= <- <-].
  - now intros [= <- <-].
Qed.

(** More fuel does not change how a finished loop ended. *)
Lemma power_wait_fuel_mono (fuel : nat) :
  forall (w : CC2531) (out : result unit * CC2531),
    power_wait bus fuel w = Some out ->
    power_wait bus (S fuel) w = Some out.
Proof.
  induction fuel as [| fuel IH]; intros w out; [discriminate |].
  intros Hrun. cbn [power_wait] in Hrun |- *.
  destruct (ctrl_transfer bus _ _ _ _ _ w) as [[power_status | e] w1];
    [| assumption].
  destruct (getitem power_status 0) as [b | e]; [| assumption].
  destruct (byte_val b =? 4); [assumption |].
  now apply IH.
Qed.

(** The loop leaves at the first poll that reads 4. *)
Lemma power_wait_powered (fuel : nat) (w : CC2531) (b : byte)
    (rest : list byte) :
  dev w = true ->
  respond bus (trace w) (CtrlTransfer DIR_IN GET_POWER 0 0 (WLength 1))
    = Reply (b :: rest) ->
  byte_val b = 4 ->
  power_wait bus (S fuel) w
    = Some (Return tt,
            log (Usb (CtrlTransfer DIR_IN GET_POWER 0 0 (WLength 1))) w).
Proof.
  intros Hdev Hreply Hb. cbn [power_wait]. unfold ctrl_transfer, usb.
  rewrite Hdev, Hreply, getitem_0. cbn [nth_error].
  now rewrite Hb.
Qed.

(** It never leaves when no poll reads 4: whatever the fuel, it is still
    polling when the fuel is spent. *)
Lemma power_wait_never_powered :
  never_powered bus ->
  forall (fuel : nat) (w : CC2531),
    dev w = true -> power_wait bus fuel w = None.
Proof.
  intros Hnever. induction fuel as [| fuel IH]; intros w Hdev;
    cbn [power_wait]; [reflexivity |].
  destruct (Hnever (trace w)) as (b & rest & Hreply & Hb).
  unfold ctrl_transfer, usb. rewrite Hdev, Hreply, getitem_0.
  cbn [nth_error].
  destruct (Z.eqb_spec (byte_val b) 4) as [| _]; [contradiction |].
  now apply IH.
Qed.

Lemma init_never_powered (fuel : nat) (c : Z) (w0 : CC2531) :
  find bus = Found -> reliable bus -> never_powered bus ->
  __init__ bus fuel c w0 = None.
Proof.
  intros Hfind Hrel Hnever. unfold __init__. rewrite Hfind.
  unfold power_on, bind, ret, ctrl_transfer, usb. cbn.
  device_answers Hrel.
  now rewrite power_wait_never_powered.
Qed.

(** *** Objects built by the constructor *)

(** Before its closing [set_channel], the constructor has a device in
    hand, the flag clear and no thread. *)
Lemma init_returns_idle (fuel : nat) (c : Z) (w0 w : CC2531) (u : unit) :
  __init__ bus fuel c w0 = Some (Return u, w) ->
  exists w2,
    dev w2 = true /\ running w2 = false /\
    set_channel bus c w2 = (Return u, w).
Proof.
  unfold __init__.
  destruct (find bus); try discriminate.
  pose proof (power_on_same_attrs
                (set_dev true (mkCC2531 false c false None (trace w0)
                                        (spawned w0)))) as Hon.
  destruct (power_on bus _) as [[[] | e] w1]; [| discriminate].
  pose proof (power_wait_same_attrs fuel w1) as Hwait.
  destruct (power_wait bus fuel w1) as [[[[] | e] w2] |]; try discriminate.
  intros [= Hset]. exists w2.
  specialize (Hwait w2 (Return tt) eq_refl).
  destruct (same_attrs_trans _ _ _ Hon Hwait) as (Hdev & _ & Hrun & _).
  auto.
Qed.

Lemma init_consistent (fuel : nat) (c : Z) (w0 w : CC2531) (u : unit) :
  __init__ bus fuel c w0 = Some (Return u, w) -> consistent w.
Proof.
  intros Hinit.
  destruct (init_returns_idle _ _ _ _ _ Hinit) as (w2 & Hdev & Hrun & Hset).
  destruct w2 as [d ch r t tr n]. cbn in Hdev, Hrun. subst d r.
  revert Hset. destruct u. unfold_methods.
  destruct ((c >=? 11) && (c <=? 26)); [| discriminate].
  cbn. device_cases; try discriminate.
  intros [= <-]. split; [reflexivity | discriminate].
Qed.

Lemma call_keeps_consistent (o : op) (w : CC2531) :
  reliable bus -> consistent w -> consistent (snd (call bus o w)).
Proof.
  unfold consistent, streaming. intros Hrel (Hdev & Hrun).
  destruct w as [d ch r t tr n]. cbn in Hdev, Hrun. subst d.
  destruct o as [c | |]; cbn [call]; unfold_methods.
  - destruct ((c >=? 11) && (c <=? 26)); [| now cbn].
    destruct r.
    + destruct (Hrun eq_refl) as (tid & _ & -> & _). cbn.
      device_answers Hrel.
      split; [reflexivity |]. intros _. exists n. auto.
    + cbn. device_answers Hrel. split; [reflexivity | discriminate].
  - device_answers Hrel.
    split; [reflexivity |]. intros _. exists n. auto.
  - destruct t; cbn.
    + device_answers Hrel. split; [reflexivity | discriminate].
    + split; [reflexivity | discriminate].
Qed.

(** Under a device that does not fail, every state a constructed object
    goes through is consistent: whenever [running] is set there is a
    started thread in hand for [stop] to join. *)
Lemma states_consistent (ops : list op) (w : CC2531) :
  reliable bus -> consistent w -> Forall consistent (states bus ops w).
Proof.
  intros Hrel. revert w.
  induction ops as [| o ops IH]; intros w Hw; cbn [states].
  - constructor.
  - constructor; [| apply IH]; now apply call_keeps_consistent.
Qed.
End ControllerFacts.

(** A constructor called with a channel outside 11..26 does not return:
    no object comes out of it. *)
Lemma init_out_of_range (bus : Bus) (fuel : nat) (c : Z) (w0 w : CC2531)
    (u : unit) :
  c < 11 \/ c > 26 -> __init__ bus fuel c w0 <> Some (Return u, w).
Proof.
  intros Hout Hinit.
  destruct (init_returns bus _ _ _ _ _ Hinit) as (w2 & Hset).
  apply set_channel_returns in Hset. lia.
Qed.

(** On a powered device it raises [ValueError], after the attribute was
    assigned on the object being abandoned. *)
Example init_out_of_range_raises :
  exists w, __init__ ready_bus 1 5 world0 = Some (Raise ValueError, w) /\
            channel w = 5.
Proof. eexists. split; reflexivity. Qed.

(** C4.  For every controller the constructor returns, whatever channel
    argument it was given, and every sequence of [set_channel], [start] and
    [stop] calls on it with any arguments, the channel attribute is within
    11..26 after construction and after every call, failed calls
    included. *)
Theorem channel_in_range_always (bus : Bus) (fuel : nat) (c : Z)
    (w0 w : CC2531) (ops : list op) :
  __init__ bus fuel c w0 = Some (Return tt, w) ->
  Forall channel_in_range (w :: states bus ops w).
Proof.
  intros Hinit.
  destruct (init_returns bus _ _ _ _ _ Hinit) as (w2 & Hset).
  apply set_channel_returns in Hset. destruct Hset as (Hc & Hw).
  assert (Hrange : channel_in_range w) by (unfold channel_in_range; lia).
  constructor; [assumption |].
  now apply states_keep_channel_in_range.
Qed.

Lemma channel_in_range_always_witness :
  let ops := [OpStart; OpSetChannel 20; OpSetChannel 3; OpStart;
              OpSetChannel 27; OpStop; OpStop; OpSetChannel 26] in
  let bus := failing_bus 14 in
  __init__ bus 1 15 world0 = Some (Return tt, idle_world) /\
  Forall channel_in_range (idle_world :: states bus ops idle_world).
Proof.
  intros ops bus. split; [reflexivity |].
  apply (channel_in_range_always bus 1 15 world0 idle_world ops).
  reflexivity.
Defined.

(** C5.  [set_channel c] with [c] in 11..26 on a streaming controller
    returns with the controller streaming and its channel [c].  The thread
    it held was joined and a thread created by this call is held instead.
    The two channel commands were issued after that join and the stop
    command and before the start command. *)
Theorem set_channel_while_streaming (bus : Bus) (w : CC2531) (c : Z)
    (tid : nat) :
  reliable bus ->
  dev w = true ->
  streaming w tid ->
  11 <= c <= 26 ->
  let tid' := spawned w in
  let w' :=
    mkCC2531 true c true (Some tid')
      (trace w
       ++ [ThreadJoin tid;
           Usb (CtrlTransfer DIR_OUT SET_STOP 0 0 NoData);
           Usb (CtrlTransfer DIR_OUT SET_CHAN 0 0 (Data [c]));
           Usb (CtrlTransfer DIR_OUT SET_CHAN 0 1 (Data [0]));
           Usb (CtrlTransfer DIR_OUT SET_START 0 0 NoData);
           ThreadStart tid'])
      (S tid') in
  set_channel bus c w = (Return tt, w') /\
  streaming w' tid' /\
  channel w' = c /\
  tid' <> tid.
Proof.
  intros Hrel Hdev (Hrun & Hthread & Hfresh) Hc tid' w'. subst tid' w'.
  destruct w as [d ch r t tr n]. cbn in Hdev, Hrun, Hthread, Hfresh |- *.
  subst d r t.
  split; [| unfold streaming; cbn; repeat split; lia].
  unfold_methods.
  destruct (Z.geb_spec c 11) as [_ | ?]; [| lia].
  destruct (Z.leb_spec c 26) as [_ | ?]; [| lia].
  cbn. device_answers Hrel.
  repeat rewrite <- app_assoc. reflexivity.
Qed.

Lemma set_channel_while_streaming_witness :
  let w' :=
    mkCC2531 true 20 true (Some 1%nat)
      (trace streaming_world
       ++ [ThreadJoin 0;
           Usb (CtrlTransfer DIR_OUT SET_STOP 0 0 NoData);
           Usb (CtrlTransfer DIR_OUT SET_CHAN 0 0 (Data [20]));
           Usb (CtrlTransfer DIR_OUT SET_CHAN 0 1 (Data [0]));
           Usb (CtrlTransfer DIR_OUT SET_START 0 0 NoData);
           ThreadStart 1])
      2 in
  reliable ready_bus /\
  dev streaming_world = true /\
  streaming streaming_world 0 /\
  11 <= 20 <= 26 /\
  set_channel ready_bus 20 streaming_world = (Return tt, w') /\
  streaming w' 1 /\
  channel w' = 20 /\
  1%nat <> 0%nat.
Proof.
  intros w'.
  assert (Hrel : reliable ready_bus) by (intros h rq; discriminate).
  assert (Hstr : streaming streaming_world 0)
    by (unfold streaming; cbn; repeat split; lia).
  assert (Hc : 11 <= 20 <= 26) by lia.
  do 4 (split; [assumption || reflexivity |]).
  exact (set_channel_while_streaming ready_bus streaming_world 20 0
           Hrel eq_refl Hstr Hc).
Defined.

(** C6.  [set_channel c] with [c < 11] or [c > 26] raises [ValueError]
    and changes nothing: channel, running flag and every other attribute
    are as before, and no command was sent to the device. *)
Theorem set_channel_out_of_range (bus : Bus) (w : CC2531) (c : Z) :
  c < 11 \/ c > 26 ->
  set_channel bus c w = (Raise ValueError, w).
Proof.
  intros Hout. unfold set_channel, bind, get, raise.
  destruct (Z.geb_spec c 11) as [? | _]; [| reflexivity].
  destruct (Z.leb_spec c 26) as [? | _]; [lia | reflexivity].
Qed.

Lemma set_channel_out_of_range_witness :
  (10 < 11 \/ 10 > 26) /\
  set_channel ready_bus 10 streaming_world = (Raise ValueError, streaming_world)
  /\
  (27 < 11 \/ 27 > 26) /\
  set_channel stuck_bus 27 idle_world = (Raise ValueError, idle_world).
Proof.
  assert (H10 : 10 < 11 \/ 10 > 26) by (left; lia).
  assert (H27 : 27 < 11 \/ 27 > 26) by (right; lia).
  split; [assumption |]. split.
  - exact (set_channel_out_of_range ready_bus streaming_world 10 H10).
  - split; [assumption |].
    exact (set_channel_out_of_range stuck_bus idle_world 27 H27).
Defined.

(** C7 fails on the code: [start] has no test of [running].  On the
    streaming controller it returns normally, having sent the start
    command again and replaced the thread held by a new one. *)
Lemma start_while_streaming_counterexample :
  running streaming_world = true /\
  start ready_bus streaming_world
    = (Return tt,
       mkCC2531 true 15 true (Some 1%nat)
         (trace streaming_world
          ++ [Usb (CtrlTransfer DIR_OUT SET_START 0 0 NoData); ThreadStart 1])
         2) /\
  ~ (exists e : exn,
       start ready_bus streaming_world = (Raise e, streaming_world)).
Proof.
  split; [reflexivity |]. split; [reflexivity |].
  intros (e & Hraise). discriminate Hraise.
Qed.

(** C7, amended.  [start] on a streaming controller raises nothing when
    the device takes the command: it returns with [running] still set and
    the channel unchanged, having sent the start command once more and
    started another receiver thread, which replaces the one held; the
    earlier thread is not joined. *)
Theorem start_while_streaming_restarts (bus : Bus) (w : CC2531) (tid : nat) :
  reliable bus ->
  dev w = true ->
  streaming w tid ->
  let tid' := spawned w in
  let w' :=
    mkCC2531 true (channel w) true (Some tid')
      (trace w
       ++ [Usb (CtrlTransfer DIR_OUT SET_START 0 0 NoData); ThreadStart tid'])
      (S tid') in
  start bus w = (Return tt, w') /\
  streaming w' tid' /\
  tid' <> tid.
Proof.
  intros Hrel Hdev (Hrun & Hthread & Hfresh) tid' w'. subst tid' w'.
  destruct w as [d ch r t tr n]. cbn in Hdev, Hrun, Hthread, Hfresh |- *.
  subst d r t.
  split; [| unfold streaming; cbn; repeat split; lia].
  unfold_methods. device_answers Hrel.
  repeat rewrite <- app_assoc. reflexivity.
Qed.

Lemma start_while_streaming_restarts_witness :
  let w' :=
    mkCC2531 true 15 true (Some 1%nat)
      (trace streaming_world
       ++ [Usb (CtrlTransfer DIR_OUT SET_START 0 0 NoData); ThreadStart 1])
      2 in
  reliable ready_bus /\
  dev streaming_world = true /\
  streaming streaming_world 0 /\
  start ready_bus streaming_world = (Return tt, w') /\
  streaming w' 1 /\
  1%nat <> 0%nat.
Proof.
  intros w'.
  assert (Hrel : reliable ready_bus) by (intros h rq; discriminate).
  assert (Hstr : streaming streaming_world 0)
    by (unfold streaming; cbn; repeat split; lia).
  do 3 (split; [assumption || reflexivity |]).
  exact (start_while_streaming_restarts ready_bus streaming_world 0
           Hrel eq_refl Hstr).
Defined.

(** C8 fails on the code: the loop has no bound.  On a device whose power
    status always reads 0 the constructor does not end, with any fuel, so
    it does not end in an error either. *)
Lemma power_poll_counterexample :
  ~ (exists (fuel : nat) (out : result unit * CC2531),
       __init__ stuck_bus fuel 11 world0 = Some out).
Proof.
  assert (Hrel : reliable stuck_bus) by (intros h rq; discriminate).
  assert (Hnever : never_powered stuck_bus).
  { intros h. exists x00, []. split; [reflexivity | discriminate]. }
  intros (fuel & out & Hends).
  rewrite (init_never_powered stuck_bus fuel 11 world0 eq_refl Hrel Hnever)
    in Hends.
  discriminate.
Qed.

(** C8, amended.  The constructor's power-status loop is not bounded: for
    every device that is found, completes its calls and never answers the
    power-status query with a first byte equal to 4, construction does not
    terminate, whatever the channel; the loop is still polling after any
    number of turns and no timeout error is raised. *)
Theorem power_poll_unbounded (bus : Bus) (c : Z) (w0 : CC2531) :
  find bus = Found ->
  reliable bus ->
  never_powered bus ->
  forall fuel : nat, __init__ bus fuel c w0 = None.
Proof.
  intros Hfind Hrel Hnever fuel. now apply init_never_powered.
Qed.

Lemma power_poll_unbounded_witness :
  find stuck_bus = Found /\
  reliable stuck_bus /\
  never_powered stuck_bus /\
  forall fuel : nat, __init__ stuck_bus fuel 11 world0 = None.
Proof.
  assert (Hrel : reliable stuck_bus) by (intros h rq; discriminate).
  assert (Hnever : never_powered stuck_bus).
  { intros h. exists x00, []. split; [reflexivity | discriminate]. }
  split; [reflexivity |]. split; [assumption |]. split; [assumption |].
  exact (power_poll_unbounded stuck_bus 11 world0 eq_refl Hrel Hnever).
Defined.

(** When some poll does read 4 the constructor goes on, with any fuel
    that reaches that poll. *)
Lemma init_fuel_mono (bus : Bus) (fuel : nat) (c : Z) (w0 : CC2531)
    (out : result unit * CC2531) :
  __init__ bus fuel c w0 = Some out -> __init__ bus (S fuel) c w0 = Some out.
Proof.
  unfold __init__. destruct (find bus); trivial.
  destruct (power_on bus _) as [[[] | e] w1]; trivial.
  destruct (power_wait bus fuel w1) as [out1 |] eqn:Hwait; [| discriminate].
  now rewrite (power_wait_fuel_mono bus fuel w1 out1 Hwait).
Qed.

(** Under a device that does not fail, a constructed controller whose
    [running] is set is streaming in the sense C5 and C7 assume, at every
    point of every sequence of calls. *)
Lemma constructed_states_consistent (bus : Bus) (fuel : nat) (c : Z)
    (w0 w : CC2531) (ops : list op) :
  reliable bus ->
  __init__ bus fuel c w0 = Some (Return tt, w) ->
  Forall consistent (w :: states bus ops w).
Proof.
  intros Hrel Hinit.
  assert (Hw : consistent w) by exact (init_consistent bus _ _ _ _ _ Hinit).
  constructor; [assumption |]. now apply states_consistent.
Qed.


(** * Further properties of the code *)

(** ** Accepted frames *)

Lemma correlation_range (b : byte) : 0 <= Z.land (byte_val b) 127 <= 127.
Proof. destruct b; vm_compute; split; discriminate. Qed.

(** X1.  A packet the decoder returns comes from a buffer of 8 to 258
    bytes; it carries the clock reading and the controller's channel, its
    header is the four bytes 3..6, its payload the bytes from 8 up to the
    last two, [len - 10] of them (none below 10), its rssi lies in
    -201..54 and its correlation in 0..127. *)
Theorem accepted_packet_shape (self : CC2531) (now : struct_time)
    (packet : list byte) (p : Packet) :
  parse_packet self now packet = Return (Some p) ->
  8 <= len packet <= 258 /\
  timestamp p = now /\
  pkt_channel p = channel self /\
  header p = firstn 4 (skipn 3 packet) /\
  length (header p) = 4%nat /\
  payload p = firstn (length packet - 10) (skipn 8 packet) /\
  len (payload p) = Z.max 0 (len packet - 10) /\
  -201 <= rssi p <= 54 /\
  0 <= correlation p <= 127.
Proof.
  intros Hacc.
  destruct (parse_packet_inv _ _ _ _ Hacc)
    as (pre & f1 & f2 & _ & Hdecl & Hpay & ->).
  cbn [timestamp pkt_channel header payload rssi correlation].
  unfold declared_len_ok in Hdecl. unfold payload_len_ok in Hpay.
  destruct (nth_error packet 1) as [b1 |]; [| discriminate].
  destruct (nth_error packet 7) as [b7 |] eqn:E7; [| discriminate].
  assert (Hlong : (7 < length packet)%nat)
    by (apply nth_error_Some; congruence).
  apply Z.eqb_eq in Hdecl.
  pose proof (byte_val_range b1) as Hb1.
  pose proof (signed8_range (byte_val f1)) as Hrssi.
  pose proof (correlation_range f2) as Hcorr.
  rewrite len_slice_8_m2, slice_3_7, slice_8_m2.
  assert (Hhdr : length (firstn 4 (skipn 3 packet)) = 4%nat)
    by (rewrite length_firstn, length_skipn; lia).
  unfold len in *. repeat split; trivial; lia.
Qed.

Lemma accepted_packet_shape_witness :
  let packet := [x00; x0a; x00; x01; x02; x03; x04; x05; x01; x02; x03;
                 xd6; x85] in
  let p := mkPacket 7 20 [x01; x02; x03; x04] [x01; x02; x03] (-115) true 5 in
  parse_packet (mkCC2531 true 20 true (Some 0%nat) [] 1) 7 packet
    = Return (Some p) /\
  (8 <= len packet <= 258 /\
   timestamp p = 7 /\
   pkt_channel p = 20 /\
   header p = firstn 4 (skipn 3 packet) /\
   length (header p) = 4%nat /\
   payload p = firstn (length packet - 10) (skipn 8 packet) /\
   len (payload p) = Z.max 0 (len packet - 10) /\
   -201 <= rssi p <= 54 /\
   0 <= correlation p <= 127).
Proof.
  intros packet p. split; [reflexivity |].
  apply (accepted_packet_shape
           (mkCC2531 true 20 true (Some 0%nat) [] 1) 7 packet p).
  reflexivity.
Defined.

(** X2.  A buffer laid out as status byte, length byte, one more byte, four
    header bytes, payload-length byte, payload and two trailing bytes, with
    the length byte equal to the payload length plus 7 and the
    payload-length byte equal to the payload length plus 2, is decoded to
    the packet with that header and that payload. *)
Theorem layout_decodes (self : CC2531) (now : struct_time)
    (b0 b1 b2 b7 fcs1 fcs2 : byte) (hdr pl : list byte) :
  length hdr = 4%nat ->
  byte_val b1 = len pl + 7 ->
  byte_val b7 = len pl + 2 ->
  parse_packet self now (b0 :: b1 :: b2 :: hdr ++ b7 :: pl ++ [fcs1; fcs2])
  = Return (Some (mkPacket now (channel self) hdr pl
                           (signed8 (byte_val fcs1) - 73)
                           (Z.testbit (byte_val fcs2) 7)
                           (Z.land (byte_val fcs2) 127))).
Proof.
  intros Hhdr Hb1 Hb7.
  destruct hdr as [| h1 [| h2 [| h3 [| h4 [| h5 hdr]]]]]; try discriminate.
  cbn [app].
  set (packet := b0 :: b1 :: b2 :: h1 :: h2 :: h3 :: h4 :: b7
                    :: pl ++ [fcs1; fcs2]).
  assert (Hlen : length packet = (length pl + 10)%nat).
  { subst packet. cbn [length]. rewrite length_app. cbn [length]. lia. }
  assert (Hpl : slice packet (Some 8) (Some (-2)) = pl).
  { rewrite slice_8_m2, Hlen. subst packet. cbn [skipn].
    replace (length pl + 10 - 10)%nat with (length pl + 0)%nat by lia.
    now rewrite firstn_app_2, firstn_O, app_nil_r. }
  assert (Hfcs : slice packet (Some (-2)) None = [fcs1; fcs2]).
  { change packet
      with ((b0 :: b1 :: b2 :: h1 :: h2 :: h3 :: h4 :: b7 :: pl)
            ++ [fcs1; fcs2]).
    apply slice_m2_snoc2. }
  unfold parse_packet, rbind. rewrite getitem_1, getitem_7, Hpl, Hfcs.
  rewrite slice_3_7. unfold len in *. rewrite Hlen.
  subst packet. cbn [nth_error skipn firstn].
  rewrite (proj2 (Z.eqb_eq _ _)) by lia.
  rewrite (proj2 (Z.eqb_eq _ _)) by lia.
  cbn [negb]. now rewrite crc_test_is_bit7.
Qed.

Lemma layout_decodes_witness :
  length [xaa; xbb; xcc; xdd] = 4%nat /\
  byte_val x0a = len [x01; x02; x03] + 7 /\
  byte_val x05 = len [x01; x02; x03] + 2 /\
  parse_packet idle_world 9
    (x00 :: x0a :: xff :: [xaa; xbb; xcc; xdd] ++ x05 :: [x01; x02; x03]
         ++ [x00; x00])
  = Return (Some (mkPacket 9 (channel idle_world) [xaa; xbb; xcc; xdd]
                           [x01; x02; x03]
                           (signed8 (byte_val x00) - 73)
                           (Z.testbit (byte_val x00) 7)
                           (Z.land (byte_val x00) 127))).
Proof.
  do 3 (split; [reflexivity |]).
  apply (layout_decodes idle_world 9 x00 x0a xff x05 x00 x00
           [xaa; xbb; xcc; xdd] [x01; x02; x03]); reflexivity.
Defined.

(** X3.  The decoder also accepts buffers of 8 and 9 bytes, shorter than
    the layout: the payload is then empty and byte 7, the payload-length
    byte, is 2.  In an 8-byte buffer that byte is read again as the last
    status byte, so the correlation is 2 and [crc_ok] is false; in a
    9-byte buffer it is read again as the first status byte, so the rssi
    is -71. *)
Theorem short_frames_accepted (self : CC2531) (now : struct_time)
    (packet : list byte) (p : Packet) :
  parse_packet self now packet = Return (Some p) ->
  (length packet < 10)%nat ->
  payload p = [] /\
  (exists b7, nth_error packet 7 = Some b7 /\ byte_val b7 = 2) /\
  (length packet = 8%nat -> correlation p = 2 /\ crc_ok p = false) /\
  (length packet = 9%nat -> rssi p = -71).
Proof.
  intros Hacc Hshort.
  destruct (parse_packet_inv _ _ _ _ Hacc)
    as (pre & f1 & f2 & Esnoc & _ & Hpay & ->).
  cbn [payload correlation crc_ok rssi].
  unfold payload_len_ok in Hpay. rewrite len_slice_8_m2 in Hpay.
  destruct (nth_error packet 7) as [b7 |] eqn:E7; [| discriminate].
  apply Z.eqb_eq in Hpay.
  assert (Hb7 : byte_val b7 = 2) by (unfold len in Hpay; lia).
  assert (Hfcs : skipn (length packet - 2) packet = [f1; f2]).
  { rewrite <- slice_m2. rewrite Esnoc at 1. apply slice_m2_snoc2. }
  split; [| split; [now exists b7 | split]].
  - rewrite slice_8_m2.
    now replace (length packet - 10)%nat with 0%nat by lia.
  - intros H8. rewrite H8 in Hfcs.
    destruct packet as [| a0 [| a1 [| a2 [| a3 [| a4 [| a5 [| a6 [| a7 [| ]]]]]]]]];
      try discriminate.
    cbn in E7, Hfcs. injection E7 as ->. injection Hfcs as _ <-.
    now rewrite Hb7.
  - intros H9. rewrite H9 in Hfcs.
    destruct packet
      as [| a0 [| a1 [| a2 [| a3 [| a4 [| a5 [| a6 [| a7 [| a8 [| ]]]]]]]]]];
      try discriminate.
    cbn in E7, Hfcs. injection E7 as ->. injection Hfcs as <- _.
    now rewrite Hb7.
Qed.

Lemma short_frames_accepted_witness :
  let packet := [x00; x05; x00; x0a; x0b; x0c; xff; x02] in
  let p := mkPacket 0 15 [x0a; x0b; x0c; xff] [] (-74) false 2 in
  parse_packet idle_world 0 packet = Return (Some p) /\
  (length packet < 10)%nat /\
  payload p = [] /\
  (exists b7, nth_error packet 7 = Some b7 /\ byte_val b7 = 2) /\
  (length packet = 8%nat -> correlation p = 2 /\ crc_ok p = false) /\
  (length packet = 9%nat -> rssi p = -71).
Proof.
  intros packet p.
  assert (Hlen : (length packet < 10)%nat) by (cbn; lia).
  split; [reflexivity |]. split; [assumption |].
  apply (short_frames_accepted idle_world 0 packet p); [reflexivity | exact Hlen].
Defined.

(** ** The receiver loop *)

(** X4.  The loop over one run of reads followed by another: if the first
    run ends normally the second is processed after it and the packets of
    both reach the callback in order; if the first run raises, the thread
    ends there and the second run is never read. *)
Theorem recv_app (self : CC2531)
    (reads1 reads2 : list (struct_time * usb_reply)) :
  recv self (reads1 ++ reads2) =
  match recv self reads1 with
  | (ps, Return _) => let (qs, r) := recv self reads2 in (ps ++ qs, r)
  | (ps, Raise e) => (ps, Raise e)
  end.
Proof.
  induction reads1 as [| [now rd] reads1 IH]; cbn [app recv].
  - now destruct (recv self reads2).
  - destruct (recv_body self now rd) as [[p |] | e]; trivial.
    rewrite IH. destruct (recv self reads1) as [ps [[] | e]]; trivial.
    now destruct (recv self reads2).
Qed.

(** X5.  One turn of the loop raises in exactly three cases: the read
    itself raised ([USBError]); the buffer read is empty ([IndexError] at
    [ret[0]]); the buffer has status 0 and is one the decoder raises on,
    that is, it has fewer than 2 bytes, or fewer than 8 and a length byte
    equal to its length less 3 ([IndexError]). *)
Theorem recv_body_raises_iff (self : CC2531) (now : struct_time)
    (rd : usb_reply) (e : exn) :
  recv_body self now rd = Raise e <->
  (rd = Fault /\ e = USBError) \/
  (rd = Reply [] /\ e = IndexError) \/
  (exists b0 rest,
     rd = Reply (b0 :: rest) /\ byte_val b0 = 0 /\ e = IndexError /\
     ((length (b0 :: rest) < 2)%nat \/
      ((length (b0 :: rest) < 8)%nat /\
       declared_len_ok (b0 :: rest) = true))).
Proof.
  destruct rd as [[| b0 rest] |]; cbn [recv_body].
  - rewrite getitem_0. cbn [nth_error rbind]. split.
    + intros [= <-]. auto.
    + intros [(? & _) | [(_ & ->) | (? & ? & ? & _)]];
        [discriminate | reflexivity | discriminate].
  - rewrite getitem_0. cbn [nth_error rbind].
    destruct (Z.eqb_spec (byte_val b0) 0) as [Hzero | Hnonzero].
    + destruct (parse_packet self now (b0 :: rest)) as [[p |] | e'] eqn:Hdec;
        cbn [rbind].
      * split; [discriminate |].
        intros [(? & _) | [(? & _) | (b & r & [= <- <-] & _ & -> & Hshort)]];
          try discriminate.
        assert (Hraise : parse_packet self now (b0 :: rest) = Raise IndexError)
          by (apply parse_packet_raises_iff; auto).
        congruence.
      * split; [discriminate |].
        intros [(? & _) | [(? & _) | (b & r & [= <- <-] & _ & -> & Hshort)]];
          try discriminate.
        assert (Hraise : parse_packet self now (b0 :: rest) = Raise IndexError)
          by (apply parse_packet_raises_iff; auto).
        congruence.
      * apply parse_packet_raises_iff in Hdec. destruct Hdec as (-> & Hshort).
        split.
        -- intros [= <-]. right. right. exists b0, rest. auto.
        -- intros [(? & _) | [(? & _) | (_ & _ & _ & _ & -> & _)]];
             try discriminate; reflexivity.
    + split; [discriminate |].
      intros [(? & _) | [(? & _) | (b & r & [= <- <-] & Hzero & _)]];
        try discriminate; contradiction.
  - split.
    + intros [= <-]. auto.
    + intros [(_ & ->) | [(? & _) | (? & ? & ? & _)]];
        [reflexivity | discriminate | discriminate].
Qed.

(** X6.  Whatever the reads and however the thread ends, every packet the
    loop hands to the callback was decoded from one of the reads, a buffer
    with status byte 0, at that read's clock reading; so there are at most
    as many packets as status-0 reads. *)
Theorem recv_delivers_decoded_only (self : CC2531)
    (reads : list (struct_time * usb_reply)) :
  Forall (fun p =>
            exists now ret,
              In (now, Reply ret) reads /\
              status_zero (now, Reply ret) = true /\
              parse_packet self now ret = Return (Some p))
         (fst (recv self reads)) /\
  (length (fst (recv self reads)) <= length (filter status_zero reads))%nat.
Proof.
  induction reads as [| [now rd] reads [IHall IHlen]]; cbn [recv].
  - split; [constructor | cbn; lia].
  - assert (Hweaken :
      Forall (fun p =>
                exists now0 ret,
                  In (now0, Reply ret) ((now, rd) :: reads) /\
                  status_zero (now0, Reply ret) = true /\
                  parse_packet self now0 ret = Return (Some p))
             (fst (recv self reads))).
    { eapply Forall_impl; [| exact IHall].
      intros p (now0 & ret & Hin & Hz & Hdec).
      exists now0, ret. split; [now right | auto]. }
    destruct (recv_body self now rd) as [[p |] | e] eqn:Hbody.
    + destruct rd as [[| b0 rest] |]; cbn [recv_body] in Hbody;
        try discriminate.
      rewrite getitem_0 in Hbody. cbn [nth_error rbind] in Hbody.
      destruct (byte_val b0 =? 0) eqn:Hzero; [| discriminate].
      destruct (parse_packet self now (b0 :: rest)) as [[q |] | e] eqn:Hdec;
        cbn [rbind] in Hbody; try discriminate.
      injection Hbody as ->.
      destruct (recv self reads) as [ps r]. cbn [fst] in *.
      split.
      * constructor; [| assumption].
        exists now, (b0 :: rest).
        split; [now left |]. split; [exact Hzero | exact Hdec].
      * assert (Hz : status_zero (now, Reply (b0 :: rest)) = true)
          by exact Hzero.
        cbn [filter]. rewrite Hz. cbn [length]. lia.
    + split; [assumption |].
      cbn [filter]. destruct (status_zero (now, rd)); cbn [length]; lia.
    + split; [constructor | cbn; lia].
Qed.

(** ** [start] and [stop] *)

(** X7.  [stop] on a controller that holds no thread, one that was never
    started, raises [AttributeError] at the join: the flag has been
    cleared, nothing else changed and no command was sent. *)
Theorem stop_never_started (bus : Bus) (w : CC2531) :
  thread w = None ->
  stop bus w = (Raise AttributeError, set_running false w) /\
  trace (snd (stop bus w)) = trace w /\
  running (snd (stop bus w)) = false.
Proof.
  intros Hthread.
  assert (Hstop : stop bus w = (Raise AttributeError, set_running false w)).
  { unfold stop, bind, modify, join_thread. cbn. now rewrite Hthread. }
  rewrite Hstop. auto.
Qed.

Lemma stop_never_started_witness :
  thread idle_world = None /\
  stop ready_bus idle_world
    = (Raise AttributeError, set_running false idle_world) /\
  trace (snd (stop ready_bus idle_world)) = trace idle_world /\
  running (snd (stop ready_bus idle_world)) = false.
Proof.
  split; [reflexivity |].
  exact (stop_never_started ready_bus idle_world eq_refl).
Defined.

(** X8.  [stop] does not look at [running].  On a controller that holds a
    thread, streaming or already stopped, and a device that takes the
    command, it returns normally: the flag is clear, the thread held was
    joined first and the stop command sent after the join, and the
    thread is still held. *)
Theorem stop_joins_then_commands (bus : Bus) (w : CC2531) (tid : nat)
    (data : list byte) :
  dev w = true ->
  thread w = Some tid ->
  respond bus (trace w ++ [ThreadJoin tid])
          (CtrlTransfer DIR_OUT SET_STOP 0 0 NoData) = Reply data ->
  stop bus w
  = (Return tt,
     mkCC2531 true (channel w) false (Some tid)
       (trace w ++ [ThreadJoin tid;
                    Usb (CtrlTransfer DIR_OUT SET_STOP 0 0 NoData)])
       (spawned w)).
Proof.
  destruct w as [d ch r t tr n]. cbn. intros -> -> Hreply.
  unfold_methods. rewrite Hreply. cbn.
  now rewrite <- app_assoc.
Qed.

Lemma stop_joins_then_commands_witness :
  let stopped :=
    mkCC2531 true 15 false (Some 0%nat)
      (trace streaming_world
       ++ [ThreadJoin 0; Usb (CtrlTransfer DIR_OUT SET_STOP 0 0 NoData)])
      1 in
  stop ready_bus streaming_world = (Return tt, stopped) /\
  stop ready_bus stopped
  = (Return tt,
     mkCC2531 true 15 false (Some 0%nat)
       (trace stopped
        ++ [ThreadJoin 0; Usb (CtrlTransfer DIR_OUT SET_STOP 0 0 NoData)])
       1).
Proof.
  intros stopped. split.
  - exact (stop_joins_then_commands ready_bus streaming_world 0 [x04]
             eq_refl eq_refl eq_refl).
  - exact (stop_joins_then_commands ready_bus stopped 0 [x04]
             eq_refl eq_refl eq_refl).
Defined.

(** X9.  [start] followed by [stop], on a controller with a device that
    completes its calls: both return, the controller ends stopped on the
    channel it had, and the thread joined is the one that was started, the
    start command coming before the thread and the stop command after
    the join. *)
Theorem start_then_stop (bus : Bus) (w : CC2531) :
  reliable bus ->
  dev w = true ->
  let tid := spawned w in
  bind (start bus) (fun _ => stop bus) w
  = (Return tt,
     mkCC2531 true (channel w) false (Some tid)
       (trace w
        ++ [Usb (CtrlTransfer DIR_OUT SET_START 0 0 NoData);
            ThreadStart tid;
            ThreadJoin tid;
            Usb (CtrlTransfer DIR_OUT SET_STOP 0 0 NoData)])
       (S tid)).
Proof.
  intros Hrel Hdev tid. subst tid.
  destruct w as [d ch r t tr n]. cbn in Hdev |- *. subst d.
  unfold_methods. device_answers Hrel.
  repeat rewrite <- app_assoc. reflexivity.
Qed.

Lemma start_then_stop_witness :
  reliable ready_bus /\
  dev idle_world = true /\
  bind (start ready_bus) (fun _ => stop ready_bus) idle_world
  = (Return tt,
     mkCC2531 true 15 false (Some 0%nat)
       (trace idle_world
        ++ [Usb (CtrlTransfer DIR_OUT SET_START 0 0 NoData);
            ThreadStart 0;
            ThreadJoin 0;
            Usb (CtrlTransfer DIR_OUT SET_STOP 0 0 NoData)])
       1).
Proof.
  assert (Hrel : reliable ready_bus) by (intros h rq; discriminate).
  split; [assumption |]. split; [reflexivity |].
  exact (start_then_stop ready_bus idle_world Hrel eq_refl).
Defined.

(** X10.  [start] sets [running] before it sends the command.  When the
    device fails the start command, [start] raises [USBError] with the
    flag set and no thread started: the thread attribute is what it
    was. *)
Theorem start_failure_leaves_flag_set (bus : Bus) (w : CC2531) :
  dev w = true ->
  respond bus (trace w) (CtrlTransfer DIR_OUT SET_START 0 0 NoData) = Fault ->
  start bus w
  = (Raise USBError,
     mkCC2531 true (channel w) true (thread w)
       (trace w ++ [Usb (CtrlTransfer DIR_OUT SET_START 0 0 NoData)])
       (spawned w)).
Proof.
  destruct w as [d ch r t tr n]. cbn. intros -> Hreply.
  unfold_methods. now rewrite Hreply.
Qed.

Lemma start_failure_leaves_flag_set_witness :
  dev idle_world = true /\
  respond (failing_bus 7) (trace idle_world)
          (CtrlTransfer DIR_OUT SET_START 0 0 NoData) = Fault /\
  start (failing_bus 7) idle_world
  = (Raise USBError,
     mkCC2531 true 15 true None
       (trace idle_world ++ [Usb (CtrlTransfer DIR_OUT SET_START 0 0 NoData)])
       0).
Proof.
  do 2 (split; [reflexivity |]).
  exact (start_failure_leaves_flag_set (failing_bus 7) idle_world
           eq_refl eq_refl).
Defined.

(** ** [set_channel] *)

(** X11.  [set_channel c] with [c] in 11..26 on a controller that is not
    running sends the two channel commands, the channel at index 0 and a
    zero byte at index 1, and nothing else: no stop, no start, no thread
    joined or started; the controller stays stopped, on channel [c]. *)
Theorem set_channel_idle (bus : Bus) (w : CC2531) (c : Z) :
  reliable bus ->
  dev w = true ->
  running w = false ->
  11 <= c <= 26 ->
  set_channel bus c w
  = (Return tt,
     mkCC2531 true c false (thread w)
       (trace w
        ++ [Usb (CtrlTransfer DIR_OUT SET_CHAN 0 0 (Data [c]));
            Usb (CtrlTransfer DIR_OUT SET_CHAN 0 1 (Data [0]))])
       (spawned w)).
Proof.
  intros Hrel Hdev Hrun Hc.
  destruct w as [d ch r t tr n]. cbn in Hdev, Hrun |- *. subst d r.
  unfold_methods.
  destruct (Z.geb_spec c 11) as [_ | ?]; [| lia].
  destruct (Z.leb_spec c 26) as [_ | ?]; [| lia].
  cbn. device_answers Hrel.
  repeat rewrite <- app_assoc. reflexivity.
Qed.

Lemma set_channel_idle_witness :
  reliable ready_bus /\
  dev idle_world = true /\
  running idle_world = false /\
  11 <= 26 <= 26 /\
  set_channel ready_bus 26 idle_world
  = (Return tt,
     mkCC2531 true 26 false None
       (trace idle_world
        ++ [Usb (CtrlTransfer DIR_OUT SET_CHAN 0 0 (Data [26]));
            Usb (CtrlTransfer DIR_OUT SET_CHAN 0 1 (Data [0]))])
       0).
Proof.
  assert (Hrel : reliable ready_bus) by (intros h rq; discriminate).
  assert (Hc : 11 <= 26 <= 26) by lia.
  split; [assumption |]. do 2 (split; [reflexivity |]).
  split; [assumption |].
  exact (set_channel_idle ready_bus idle_world 26 Hrel eq_refl eq_refl Hc).
Defined.

(** X12.  With a device that completes its calls, [set_channel] leaves
    the running flag as it found it, for every argument, in range or not,
    on every controller that holds a device and, when running, a thread
    it started. *)
Theorem set_channel_keeps_running (bus : Bus) (w : CC2531) (c : Z) :
  reliable bus ->
  consistent w ->
  running (snd (set_channel bus c w)) = running w.
Proof.
  unfold consistent, streaming. intros Hrel (Hdev & Hrun).
  destruct w as [d ch r t tr n]. cbn in Hdev, Hrun |- *. subst d.
  unfold_methods.
  destruct ((c >=? 11) && (c <=? 26)); [| reflexivity].
  destruct r.
  - destruct (Hrun eq_refl) as (tid & _ & -> & _). cbn.
    device_answers Hrel. reflexivity.
  - cbn. device_answers Hrel. reflexivity.
Qed.

Lemma set_channel_keeps_running_witness :
  reliable ready_bus /\
  consistent streaming_world /\
  running (snd (set_channel ready_bus 12 streaming_world))
  = running streaming_world.
Proof.
  assert (Hrel : reliable ready_bus) by (intros h rq; discriminate).
  assert (Hcons : consistent streaming_world).
  { split; [reflexivity |]. intros _. exists 0%nat.
    unfold streaming; cbn; repeat split; lia. }
  do 2 (split; [assumption |]).
  exact (set_channel_keeps_running ready_bus streaming_world 12 Hrel Hcons).
Defined.

Lemma last_channel_command_snoc (h : list event) (e : event) :
  last_channel_command (h ++ [e]) =
  match channel_of_command e with
  | Some c => Some c
  | None => last_channel_command h
  end.
Proof.
  unfold last_channel_command. now rewrite fold_left_app.
Qed.

(** On an object that holds a device, a call keeps the channel attribute
    equal to the channel of the last set-channel command in the trace. *)
Lemma call_keeps_channel_commanded (bus : Bus) (o : op) (w : CC2531) :
  dev w = true ->
  last_channel_command (trace w) = Some (channel w) ->
  let w' := snd (call bus o w) in
  dev w' = true /\ last_channel_command (trace w') = Some (channel w').
Proof.
  intros Hdev Hlast.
  destruct w as [d ch r t tr n]. cbn in Hdev, Hlast |- *. subst d.
  unfold last_channel_command in *.
  destruct o as [c | |]; cbn [call]; unfold_methods.
  - destruct ((c >=? 11) && (c <=? 26)); [| now cbn].
    destruct r, t; cbn; device_cases;
      repeat rewrite fold_left_app; cbn; auto.
  - device_cases; repeat rewrite fold_left_app; cbn; auto.
  - destruct t; cbn; device_cases;
      repeat rewrite fold_left_app; cbn; auto.
Qed.

Lemma set_channel_returns_commanded (bus : Bus) (c : Z) (w w' : CC2531) :
  dev w = true ->
  set_channel bus c w = (Return tt, w') ->
  dev w' = true /\ last_channel_command (trace w') = Some (channel w').
Proof.
  intros Hdev. destruct w as [d ch r t tr n]. cbn in Hdev. subst d.
  unfold last_channel_command. unfold_methods.
  destruct ((c >=? 11) && (c <=? 26)); [| discriminate].
  destruct r, t; cbn; device_cases; try discriminate;
    intros [= <-]; cbn; repeat rewrite fold_left_app; cbn; auto.
Qed.

Lemma states_keep_channel_commanded (bus : Bus) (ops : list op) :
  forall w : CC2531,
    dev w = true ->
    last_channel_command (trace w) = Some (channel w) ->
    Forall (fun w' => last_channel_command (trace w') = Some (channel w'))
           (states bus ops w).
Proof.
  induction ops as [| o ops IH]; intros w Hdev Hlast; cbn [states].
  - constructor.
  - destruct (call_keeps_channel_commanded bus o w Hdev Hlast)
      as (Hdev' & Hlast').
    constructor; [exact Hlast' | now apply IH].
Qed.

(** X13.  On every controller the constructor returns, after construction
    and after every later [set_channel], [start] or [stop], failed or
    not and whatever the device answers, the channel attribute is the
    channel of the last set-channel command sent to the device. *)
Theorem channel_is_last_commanded (bus : Bus) (fuel : nat) (c : Z)
    (w0 w : CC2531) (ops : list op) :
  __init__ bus fuel c w0 = Some (Return tt, w) ->
  Forall (fun w' => last_channel_command (trace w') = Some (channel w'))
         (w :: states bus ops w).
Proof.
  intros Hinit.
  destruct (init_returns_idle bus _ _ _ _ _ Hinit) as (w2 & Hdev & _ & Hset).
  destruct (set_channel_returns_commanded bus c w2 w Hdev Hset)
    as (Hdev' & Hlast).
  constructor; [assumption |].
  now apply states_keep_channel_commanded.
Qed.

Lemma channel_is_last_commanded_witness :
  let ops := [OpStart; OpSetChannel 20; OpSetChannel 3; OpStop;
              OpSetChannel 25; OpStart; OpSetChannel 12] in
  let bus := failing_bus 17 in
  __init__ bus 1 15 world0 = Some (Return tt, idle_world) /\
  Forall (fun w' => last_channel_command (trace w') = Some (channel w'))
         (idle_world :: states bus ops idle_world).
Proof.
  intros ops bus. split; [reflexivity |].
  apply (channel_is_last_commanded bus 1 15 world0 idle_world ops).
  reflexivity.
Defined.

(** ** The constructor and the destructor *)



(** The constructor up to its loop, on a device that completes its
    calls. *)
Lemma power_on_reliable (bus : Bus) (c : Z) (w0 : CC2531) :
  reliable bus ->
  power_on bus (set_dev true (mkCC2531 false c false None (trace w0)
                                       (spawned w0)))
  = (Return tt,
     mkCC2531 true c false None (trace w0 ++ power_on_events) (spawned w0)).
Proof.
  intros Hrel. unfold power_on, bind, ret, ctrl_transfer, usb, log, set_dev.
  cbn. device_answers Hrel.
  unfold power_on_events. repeat rewrite <- app_assoc. reflexivity.
Qed.

Lemma polls_succ (k : nat) : polls (S k) = Usb power_query :: polls k.
Proof. reflexivity. Qed.

Lemma polls_snoc (k : nat) : polls (S k) = polls k ++ [Usb power_query].
Proof.
  unfold polls. induction k as [| k IH]; [reflexivity |].
  cbn [repeat app] in *. now rewrite <- IH.
Qed.

(** The loop goes through the polls that do not read 4: [k] of them use
    up [k] units of fuel and leave [k] queries in the trace. *)
Lemma power_wait_skip (bus : Bus) (k : nat) :
  forall (w : CC2531) (fuel : nat),
    dev w = true ->
    unpowered_for bus (trace w) k ->
    power_wait bus (k + fuel) w
    = power_wait bus fuel
        (mkCC2531 true (channel w) (running w) (thread w)
                  (trace w ++ polls k) (spawned w)).
Proof.
  induction k as [| k IH]; intros w fuel Hdev Hun.
  - destruct w as [d ch r t tr n]. cbn in Hdev |- *. subst d.
    now rewrite app_nil_r.
  - destruct (Hun 0%nat ltac:(lia)) as (b & rest & Hreply & Hb).
    cbn [polls repeat] in Hreply. rewrite app_nil_r in Hreply.
    cbn [Nat.add power_wait]. unfold ctrl_transfer, usb.
    fold power_query. rewrite Hdev, Hreply, getitem_0. cbn [nth_error].
    destruct (Z.eqb_spec (byte_val b) 4) as [| _]; [contradiction |].
    rewrite IH.
    + destruct w as [d ch r t tr n]. cbn. rewrite <- app_assoc.
      reflexivity.
    + destruct w; assumption.
    + intros j Hj. destruct (Hun (S j) ltac:(lia)) as (b' & rest' & Hr & Hb').
      exists b', rest'. split; [| assumption].
      destruct w as [d ch r t tr n]. cbn in Hr |- *.
      rewrite <- app_assoc. exact Hr.
Qed.

(** With a device that completes its calls and reads "powered" at poll
    [k], the constructor reaches its closing [set_channel] after [k + 1]
    polls, given the fuel for them. *)
Lemma init_reaches_set_channel (bus : Bus) (fuel k : nat) (c : Z)
    (w0 : CC2531) :
  find bus = Found ->
  reliable bus ->
  powered_at bus (trace w0 ++ power_on_events) k ->
  (k < fuel)%nat ->
  __init__ bus fuel c w0
  = Some (set_channel bus c
            (mkCC2531 true c false None
               (trace w0 ++ power_on_events ++ polls (S k)) (spawned w0))).
Proof.
  intros Hfind Hrel (Hun & b & rest & Hreply & Hb) Hfuel.
  assert (Htrace : trace w0 ++ power_on_events ++ polls (S k)
                   = ((trace w0 ++ power_on_events) ++ polls k)
                     ++ [Usb power_query])
    by (rewrite polls_snoc, !app_assoc; reflexivity).
  rewrite Htrace.
  unfold __init__. rewrite Hfind, power_on_reliable by assumption.
  replace fuel with (k + S (fuel - S k))%nat by lia.
  rewrite power_wait_skip by (assumption || reflexivity).
  cbn [channel running thread trace spawned power_wait].
  unfold ctrl_transfer, usb. fold power_query. cbn [dev trace].
  rewrite Hreply, getitem_0. cbn [nth_error]. rewrite Hb.
  reflexivity.
Qed.

Lemma set_channel_on_idle (bus : Bus) (c ch : Z) (t : option nat)
    (tr : list event) (n : nat) :
  reliable bus ->
  11 <= c <= 26 ->
  set_channel bus c (mkCC2531 true ch false t tr n)
  = (Return tt,
     mkCC2531 true c false t
       (tr ++ [Usb (CtrlTransfer DIR_OUT SET_CHAN 0 0 (Data [c]));
               Usb (CtrlTransfer DIR_OUT SET_CHAN 0 1 (Data [0]))])
       n).
Proof.
  intros Hrel Hc. unfold_methods.
  destruct (Z.geb_spec c 11) as [_ | ?]; [| lia].
  destruct (Z.leb_spec c 26) as [_ | ?]; [| lia].
  cbn. device_answers Hrel.
  repeat rewrite <- app_assoc. reflexivity.
Qed.

(** X15.  With a device that is found, completes its calls and reads
    "powered" for the first time at its poll number [k] (from 0), the
    constructor called with a channel in 11..26 returns, given fuel for
    the polls: the controller is stopped on that channel, holds no thread,
    and the trace is the four set-up calls, exactly [k + 1] power-status
    queries and the two channel commands. *)
Theorem init_polls_until_powered (bus : Bus) (fuel k : nat) (c : Z)
    (w0 : CC2531) :
  find bus = Found ->
  reliable bus ->
  powered_at bus (trace w0 ++ power_on_events) k ->
  (k < fuel)%nat ->
  11 <= c <= 26 ->
  __init__ bus fuel c w0
  = Some (Return tt,
          mkCC2531 true c false None
            ((trace w0 ++ power_on_events ++ polls (S k))
             ++ [Usb (CtrlTransfer DIR_OUT SET_CHAN 0 0 (Data [c]));
                 Usb (CtrlTransfer DIR_OUT SET_CHAN 0 1 (Data [0]))])
            (spawned w0)).
Proof.
  intros Hfind Hrel Hpow Hfuel Hc.
  rewrite (init_reaches_set_channel bus fuel k c w0) by assumption.
  now rewrite set_channel_on_idle.
Qed.

Lemma warming_bus_reliable (n : nat) : reliable (warming_bus n).
Proof.
  intros h rq. unfold warming_bus. cbn [respond].
  destruct (Nat.ltb (length h) n); discriminate.
Qed.

Lemma warming_bus_powered_at :
  powered_at (warming_bus 6) (trace world0 ++ power_on_events) 2.
Proof.
  split.
  - intros [| [| j]] Hj; [| | lia]; exists x00, []; split;
      (reflexivity || discriminate).
  - exists x04, []. split; reflexivity.
Qed.

Lemma init_polls_until_powered_witness :
  find (warming_bus 6) = Found /\
  reliable (warming_bus 6) /\
  powered_at (warming_bus 6) (trace world0 ++ power_on_events) 2 /\
  (2 < 5)%nat /\
  11 <= 15 <= 26 /\
  __init__ (warming_bus 6) 5 15 world0
  = Some (Return tt,
          mkCC2531 true 15 false None
            ((trace world0 ++ power_on_events ++ polls 3)
             ++ [Usb (CtrlTransfer DIR_OUT SET_CHAN 0 0 (Data [15]));
                 Usb (CtrlTransfer DIR_OUT SET_CHAN 0 1 (Data [0]))])
            (spawned world0)).
Proof.
  assert (Hrel : reliable (warming_bus 6)) by apply warming_bus_reliable.
  assert (Hfuel : (2 < 5)%nat) by lia.
  assert (Hc : 11 <= 15 <= 26) by lia.
  split; [reflexivity |]. split; [assumption |].
  split; [exact warming_bus_powered_at |].
  split; [assumption |]. split; [assumption |].
  exact (init_polls_until_powered (warming_bus 6) 5 2 15 world0
           eq_refl Hrel warming_bus_powered_at Hfuel Hc).
Defined.

(** X16.  The constructor tests its channel argument last.  Called with a
    channel outside 11..26 on such a device it raises [ValueError] only
    after the radio was powered on and polled until powered; no channel
    command was sent, the abandoned object holds the device and the
    rejected channel, and its [__del__] sends the power-off command. *)
Theorem init_rejects_channel_last (bus : Bus) (fuel k : nat) (c : Z)
    (w0 : CC2531) :
  find bus = Found ->
  reliable bus ->
  powered_at bus (trace w0 ++ power_on_events) k ->
  (k < fuel)%nat ->
  c < 11 \/ c > 26 ->
  let w := mkCC2531 true c false None
             (trace w0 ++ power_on_events ++ polls (S k)) (spawned w0) in
  __init__ bus fuel c w0 = Some (Raise ValueError, w) /\
  __del__ bus w
  = (Return tt, log (Usb (CtrlTransfer DIR_OUT SET_POWER 0 0 NoData)) w).
Proof.
  intros Hfind Hrel Hpow Hfuel Hout w. split.
  - rewrite (init_reaches_set_channel bus fuel k c w0) by assumption.
    fold w. unfold set_channel, bind, get, raise.
    destruct (Z.geb_spec c 11) as [? | _]; [| reflexivity].
    destruct (Z.leb_spec c 26) as [? | _]; [lia | reflexivity].
  - unfold __del__, bind, get, ret, ctrl_transfer, usb. cbn [dev w].
    destruct (respond bus (trace w) _) eqn:E; [reflexivity |].
    now apply Hrel in E.
Qed.

Lemma init_rejects_channel_last_witness :
  let w := mkCC2531 true 27 false None
             (trace world0 ++ power_on_events ++ polls 3) (spawned world0) in
  find (warming_bus 6) = Found /\
  reliable (warming_bus 6) /\
  powered_at (warming_bus 6) (trace world0 ++ power_on_events) 2 /\
  (2 < 5)%nat /\
  (27 < 11 \/ 27 > 26) /\
  __init__ (warming_bus 6) 5 27 world0 = Some (Raise ValueError, w) /\
  __del__ (warming_bus 6) w
  = (Return tt, log (Usb (CtrlTransfer DIR_OUT SET_POWER 0 0 NoData)) w).
Proof.
  intros w.
  assert (Hrel : reliable (warming_bus 6)) by apply warming_bus_reliable.
  assert (Hfuel : (2 < 5)%nat) by lia.
  assert (Hout : 27 < 11 \/ 27 > 26) by (right; lia).
  split; [reflexivity |]. split; [assumption |].
  split; [exact warming_bus_powered_at |].
  split; [assumption |]. split; [assumption |].
  exact (init_rejects_channel_last (warming_bus 6) 5 2 27 world0
           eq_refl Hrel warming_bus_powered_at Hfuel Hout).
Defined.

Lemma set_channel_keeps_dev (bus : Bus) (c : Z) (w : CC2531) :
  dev (snd (set_channel bus c w)) = dev w.
Proof.
  destruct w as [d ch r t tr n]. unfold_methods.
  destruct ((c >=? 11) && (c <=? 26)); [| reflexivity].
  destruct r, t, d; cbn; device_cases; reflexivity.
Qed.

Lemma call_keeps_dev (bus : Bus) (o : op) (w : CC2531) :
  dev (snd (call bus o w)) = dev w.
Proof.
  destruct o as [c | |]; cbn [call].
  - apply set_channel_keeps_dev.
  - destruct w as [d ch r t tr n]. unfold_methods.
    destruct d; cbn; device_cases; reflexivity.
  - destruct w as [d ch r t tr n]. unfold_methods.
    destruct t, d; cbn; device_cases; reflexivity.
Qed.

Lemma states_keep_dev (bus : Bus) (ops : list op) :
  forall w : CC2531,
    dev w = true -> Forall (fun w' => dev w' = true) (states bus ops w).
Proof.
  induction ops as [| o ops IH]; intros w Hdev; cbn [states].
  - constructor.
  - assert (Hdev' : dev (snd (call bus o w)) = true)
      by (now rewrite call_keeps_dev).
    constructor; [assumption | now apply IH].
Qed.

Lemma del_powers_off (bus : Bus) (w : CC2531) :
  dev w = true ->
  snd (__del__ bus w)
  = log (Usb (CtrlTransfer DIR_OUT SET_POWER 0 0 NoData)) w.
Proof.
  intros Hdev. unfold __del__, bind, get, ret, ctrl_transfer, usb.
  rewrite Hdev. cbv beta. rewrite Hdev.
  now destruct (respond bus (trace w) _).
Qed.

(** X17.  Once the device was found, the object keeps it: however the
    constructor ends, returning or raising, and after any later calls,
    failed or not, whatever the device answers, [__del__] sends the
    power-off command (index 0) and changes nothing else. *)
Theorem del_powers_off_once_found (bus : Bus) (fuel : nat) (c : Z)
    (w0 : CC2531) (out : result unit * CC2531) (ops : list op) :
  find bus = Found ->
  __init__ bus fuel c w0 = Some out ->
  Forall (fun w =>
            dev w = true /\
            snd (__del__ bus w)
            = log (Usb (CtrlTransfer DIR_OUT SET_POWER 0 0 NoData)) w)
         (snd out :: states bus ops (snd out)).
Proof.
  intros Hfind Hinit.
  assert (Hdev : dev (snd out) = true).
  { revert Hinit. unfold __init__. rewrite Hfind.
    pose proof (power_on_same_attrs bus
                  (set_dev true (mkCC2531 false c false None (trace w0)
                                          (spawned w0)))) as (Hon & _).
    destruct (power_on bus _) as [[[] | e] w1]; cbn [snd dev set_dev] in Hon.
    - pose proof (power_wait_same_attrs bus fuel w1) as Hwait.
      destruct (power_wait bus fuel w1) as [[[[] | e] w2] |];
        try discriminate.
      + destruct (Hwait w2 (Return tt) eq_refl) as (Hdev2 & _).
        intros [= <-]. rewrite set_channel_keeps_dev. congruence.
      + destruct (Hwait w2 (Raise e) eq_refl) as (Hdev2 & _).
        intros [= <-]. cbn [snd]. congruence.
    - intros [= <-]. exact Hon. }
  assert (Hall : Forall (fun w => dev w = true)
                        (snd out :: states bus ops (snd out)))
    by (constructor; [assumption | now apply states_keep_dev]).
  eapply Forall_impl; [| exact Hall].
  intros w Hw. split; [assumption | now apply del_powers_off].
Qed.

Lemma del_powers_off_once_found_witness :
  let ops := [OpStart; OpSetChannel 20; OpStop; OpStart] in
  let bus := failing_bus 10 in
  find bus = Found /\
  __init__ bus 1 15 world0 = Some (Return tt, idle_world) /\
  Forall (fun w =>
            dev w = true /\
            snd (__del__ bus w)
            = log (Usb (CtrlTransfer DIR_OUT SET_POWER 0 0 NoData)) w)
         (idle_world :: states bus ops idle_world).
Proof.
  intros ops bus. do 2 (split; [reflexivity |]).
  exact (del_powers_off_once_found bus 1 15 world0 (Return tt, idle_world)
           ops eq_refl eq_refl).
Defined.

(** X18.  A power-status answer with no data ends the constructor: when
    the device, after [k] answers that read "not powered", answers the
    next query with an empty buffer, the constructor raises [IndexError]
    at [power_status[0]], before any channel command. *)
Theorem init_empty_power_status (bus : Bus) (fuel k : nat) (c : Z)
    (w0 : CC2531) :
  find bus = Found ->
  reliable bus ->
  unpowered_for bus (trace w0 ++ power_on_events) k ->
  respond bus ((trace w0 ++ power_on_events) ++ polls k) power_query
    = Reply [] ->
  (k < fuel)%nat ->
  __init__ bus fuel c w0
  = Some (Raise IndexError,
          mkCC2531 true c false None
            ((trace w0 ++ power_on_events) ++ polls (S k)) (spawned w0)).
Proof.
  intros Hfind Hrel Hun Hreply Hfuel.
  unfold __init__. rewrite Hfind, power_on_reliable by assumption.
  replace fuel with (k + S (fuel - S k))%nat by lia.
  rewrite power_wait_skip by (assumption || reflexivity).
  cbn [channel running thread trace spawned power_wait].
  unfold ctrl_transfer, usb. fold power_query. cbn [dev trace].
  rewrite Hreply, getitem_0. cbn [nth_error].
  rewrite polls_snoc, app_assoc. reflexivity.
Qed.

Lemma init_empty_power_status_witness :
  find (mute_bus 5) = Found /\
  reliable (mute_bus 5) /\
  unpowered_for (mute_bus 5) (trace world0 ++ power_on_events) 1 /\
  respond (mute_bus 5) ((trace world0 ++ power_on_events) ++ polls 1)
          power_query = Reply [] /\
  (1 < 4)%nat /\
  __init__ (mute_bus 5) 4 15 world0
  = Some (Raise IndexError,
          mkCC2531 true 15 false None
            ((trace world0 ++ power_on_events) ++ polls 2) (spawned world0)).
Proof.
  assert (Hrel : reliable (mute_bus 5)).
  { intros h rq. unfold mute_bus. cbn [respond].
    destruct (Nat.ltb (length h) 5); discriminate. }
  assert (Hun : unpowered_for (mute_bus 5) (trace world0 ++ power_on_events) 1).
  { intros [| j] Hj; [| lia]. exists x00, [].
    split; [reflexivity | discriminate]. }
  assert (Hfuel : (1 < 4)%nat) by lia.
  split; [reflexivity |]. do 2 (split; [assumption |]).
  split; [reflexivity |]. split; [assumption |].
  exact (init_empty_power_status (mute_bus 5) 4 1 15 world0
           eq_refl Hrel Hun eq_refl Hfuel).
Defined.

(** X19.  A [set_channel] that raises on a streaming controller leaves no
    receiver behind: the argument was in range or nothing happened at
    all; otherwise the exception is the device's [USBError], the thread
    held is still the old one, which was joined, and no thread was
    started, even where the flag reads running again because the start
    command was the one that failed. *)
Theorem set_channel_failure_starts_nothing (bus : Bus) (w w' : CC2531)
    (c : Z) (tid : nat) (e : exn) :
  dev w = true ->
  streaming w tid ->
  11 <= c <= 26 ->
  set_channel bus c w = (Raise e, w') ->
  e = USBError /\
  thread w' = Some tid /\
  spawned w' = spawned w /\
  (exists later, trace w' = trace w ++ ThreadJoin tid :: later /\
                 Forall (fun ev => exists rq, ev = Usb rq) later).
Proof.
  intros Hdev (Hrun & Hthread & _) Hc.
  destruct w as [d ch r t tr n]. cbn in Hdev, Hrun, Hthread. subst d r t.
  unfold_methods.
  destruct (Z.geb_spec c 11) as [_ | ?]; [| lia].
  destruct (Z.leb_spec c 26) as [_ | ?]; [| lia].
  cbn. device_cases; intros [= <- <-]; cbn;
    (split; [reflexivity |]; split; [reflexivity |];
     split; [reflexivity |]);
    repeat rewrite <- app_assoc; cbn [app];
    eexists; (split; [reflexivity |]);
    repeat constructor; eexists; reflexivity.
Qed.

Lemma set_channel_failure_starts_nothing_witness :
  let w' :=
    mkCC2531 true 20 true (Some 0%nat)
      (trace streaming_world
       ++ [ThreadJoin 0;
           Usb (CtrlTransfer DIR_OUT SET_STOP 0 0 NoData);
           Usb (CtrlTransfer DIR_OUT SET_CHAN 0 0 (Data [20]));
           Usb (CtrlTransfer DIR_OUT SET_CHAN 0 1 (Data [0]));
           Usb (CtrlTransfer DIR_OUT SET_START 0 0 NoData)])
      1 in
  dev streaming_world = true /\
  streaming streaming_world 0 /\
  11 <= 20 <= 26 /\
  set_channel (failing_bus 13) 20 streaming_world = (Raise USBError, w') /\
  USBError = USBError /\
  thread w' = Some 0%nat /\
  spawned w' = spawned streaming_world /\
  (exists later, trace w' = trace streaming_world ++ ThreadJoin 0 :: later /\
                 Forall (fun ev => exists rq, ev = Usb rq) later).
Proof.
  intros w'.
  assert (Hstr : streaming streaming_world 0)
    by (unfold streaming; cbn; repeat split; lia).
  assert (Hc : 11 <= 20 <= 26) by lia.
  split; [reflexivity |]. do 2 (split; [assumption |]).
  split; [reflexivity |].
  exact (set_channel_failure_starts_nothing (failing_bus 13) streaming_world
           w' 20 0 USBError eq_refl Hstr Hc eq_refl).
Defined.
